(** * monthly_orders_insert: the monthly star-schema load, embedded in Rocq

    The DAG [monthly_orders_insert] of [dags/monthly_orders_insert.py] chains
    five SQL statements.  Each statement is embedded as a function on
    tables (lists of rows, nullable columns as [option]); a statement that
    the engine can reject at run time returns an [outcome].  *)

From Stdlib Require Import List String Ascii ZArith Lia Bool.
From Stdlib Require Import DecimalString.
Import ListNotations.
Open Scope string_scope.
Open Scope list_scope.
Open Scope Z_scope.

Set Implicit Arguments.

(** ** Outcome of a statement *)

Inductive outcome (A : Type) : Type :=
| Success (a : A)
| SqlFailure.
Arguments Success {A} a.
Arguments SqlFailure {A}.

Definition bind {A B} (x : outcome A) (k : A -> outcome B) : outcome B :=
  match x with
  | Success a => k a
  | SqlFailure => SqlFailure
  end.

Notation "x <- e ;; k" := (bind e (fun x => k))
  (at level 61, e at next level, right associativity).

(** ** Three-valued comparison

    A comparison with a NULL operand is NULL, and a NULL condition rejects
    the row in WHERE, JOIN ... ON and MERGE ... ON alike.  The embedding
    therefore collapses a condition to the boolean "is TRUE". *)

Definition sql_eq {A} (eqb : A -> A -> bool) (a b : option A) : bool :=
  match a, b with
  | Some x, Some y => eqb x y
  | _, _ => false
  end.

Definition str_eq : option string -> option string -> bool := sql_eq String.eqb.
Definition num_eq : option Z -> option Z -> bool := sql_eq Z.eqb.

(** [x > 0] on a nullable NUMBER column (fixed point, held as its scaled
    integer). *)
Definition num_gt0 (x : option Z) : bool :=
  match x with
  | Some v => 0 <? v
  | None => false
  end.

(** ** Dates *)

Record date := mkdate { year : Z; month : Z; day : Z }.

Definition date_eqb (a b : date) : bool :=
  (year a =? year b) && (month a =? month b) && (day a =? day b).

Definition date_eq : option date -> option date -> bool := sql_eq date_eqb.

Definition is_leap (y : Z) : bool :=
  ((y mod 4 =? 0) && negb (y mod 100 =? 0)) || (y mod 400 =? 0).

Definition days_in_month (y m : Z) : Z :=
  if m =? 2 then (if is_leap y then 29 else 28)
  else if (m =? 4) || (m =? 6) || (m =? 9) || (m =? 11) then 30
  else 31.

(** DATE_TRUNC('MONTH', d) *)
Definition DATE_TRUNC_MONTH (d : date) : date :=
  mkdate (year d) (month d) 1.

(** ADD_MONTHS(d, n): the day of month is kept, except that the last day
    of a month goes to the last day of the resulting month and a day past
    the end of the resulting month is clamped. *)
Definition ADD_MONTHS (d : date) (n : Z) : date :=
  let k := year d * 12 + (month d - 1) + n in
  let y' := k / 12 in
  let m' := k mod 12 + 1 in
  let last' := days_in_month y' m' in
  let d' := if day d =? days_in_month (year d) (month d) then last'
            else Z.min (day d) last' in
  mkdate y' m' d'.

(** ** Date formats: 'DD-MM-YYYY', 'YYYYMMDD', 'YYYYMM' *)

Inductive fmt_elem := FYYYY | FMM | FDD | FLit (c : ascii).

Definition starts_with (p s : list ascii) : bool :=
  (List.length p <=? List.length s)%nat &&
  forallb (fun xy => Ascii.eqb (fst xy) (snd xy)) (combine p s).

Fixpoint format_elems (fuel : nat) (f : list ascii) : list fmt_elem :=
  match fuel with
  | O => []
  | S k =>
    match f with
    | [] => []
    | c :: r =>
      if starts_with (list_ascii_of_string "YYYY") f
      then FYYYY :: format_elems k (skipn 4 f)
      else if starts_with (list_ascii_of_string "MM") f
      then FMM :: format_elems k (skipn 2 f)
      else if starts_with (list_ascii_of_string "DD") f
      then FDD :: format_elems k (skipn 2 f)
      else FLit c :: format_elems k r
    end
  end.

Definition parse_format (f : string) : list fmt_elem :=
  format_elems (String.length f) (list_ascii_of_string f).

Definition digit_of (c : ascii) : option Z :=
  let n := Z.of_N (N_of_ascii c) in
  if (48 <=? n) && (n <=? 57) then Some (n - 48) else None.

(** Exactly [n] decimal digits. *)
Fixpoint take_digits (n : nat) (s : list ascii) (acc : Z)
  : option (Z * list ascii) :=
  match n with
  | O => Some (acc, s)
  | S k =>
    match s with
    | c :: r =>
      match digit_of c with
      | Some v => take_digits k r (10 * acc + v)
      | None => None
      end
    | [] => None
    end
  end.

Fixpoint parse_fields (f : list fmt_elem) (s : list ascii) (y m d : Z)
  : option date :=
  match f with
  | [] => match s with [] => Some (mkdate y m d) | _ => None end
  | FYYYY :: f' =>
    match take_digits 4 s 0 with
    | Some (v, r) => parse_fields f' r v m d
    | None => None
    end
  | FMM :: f' =>
    match take_digits 2 s 0 with
    | Some (v, r) => parse_fields f' r y v d
    | None => None
    end
  | FDD :: f' =>
    match take_digits 2 s 0 with
    | Some (v, r) => parse_fields f' r y m v
    | None => None
    end
  | FLit c :: f' =>
    match s with
    | c' :: r => if Ascii.eqb c c' then parse_fields f' r y m d else None
    | [] => None
    end
  end.

Definition valid_date (d : date) : bool :=
  (1 <=? month d) && (month d <=? 12) &&
  (1 <=? day d) && (day d <=? days_in_month (year d) (month d)).

(** The text [s] read as a date under [fmt]; [None] when it is not one. *)
Definition parse_date (fmt s : string) : option date :=
  match parse_fields (parse_format fmt) (list_ascii_of_string s) 1970 1 1 with
  | Some d => if valid_date d then Some d else None
  | None => None
  end.

(** TRY_TO_DATE(x, fmt): NULL for NULL and for text that is not a date. *)
Definition TRY_TO_DATE (x : option string) (fmt : string) : option date :=
  match x with
  | Some s => parse_date fmt s
  | None => None
  end.

(** TO_DATE(x, fmt): NULL for NULL; text that is not a date fails the
    statement. *)
Definition TO_DATE (x : option string) (fmt : string) : outcome (option date) :=
  match x with
  | Some s =>
    match parse_date fmt s with
    | Some d => Success (Some d)
    | None => SqlFailure
    end
  | None => Success None
  end.

Fixpoint pad_digits (n : nat) (v : Z) : list ascii :=
  match n with
  | O => []
  | S k => pad_digits k (v / 10) ++ [ascii_of_N (Z.to_N (48 + v mod 10))]
  end.

Definition print_elem (d : date) (e : fmt_elem) : list ascii :=
  match e with
  | FYYYY => pad_digits 4 (year d)
  | FMM => pad_digits 2 (month d)
  | FDD => pad_digits 2 (day d)
  | FLit c => [c]
  end.

(** TO_CHAR(d, fmt) *)
Definition TO_CHAR (x : option date) (fmt : string) : option string :=
  match x with
  | Some d =>
    Some (string_of_list_ascii (flat_map (print_elem d) (parse_format fmt)))
  | None => None
  end.

(** [x::STRING] on a NUMBER column without fractional digits. *)
Definition cast_string (x : option Z) : option string :=
  match x with
  | Some v => Some (NilZero.string_of_int (Z.to_int v))
  | None => None
  end.

(** ** String constants and the cleaning pattern

    The statement text lives in an ordinary (not raw) Python string, and
    the pattern is a single-quoted constant inside that text.  The
    characters written in the file therefore pass two readers before they
    reach the regular-expression engine: Python's string literal rules,
    then the SQL string-constant rules. *)

Definition chr (n : N) : ascii := ascii_of_N n.
Definition backslash : ascii := chr 92.

(** Python string literal: a recognised escape is replaced, an
    unrecognised one keeps its backslash. *)
Fixpoint python_unescape (s : list ascii) : list ascii :=
  match s with
  | [] => []
  | c :: r =>
    if Ascii.eqb c backslash then
      match r with
      | [] => [c]
      | e :: r' =>
        if Ascii.eqb e backslash then backslash :: python_unescape r'
        else if Ascii.eqb e "'" then e :: python_unescape r'
        else if Ascii.eqb e (chr 34) then e :: python_unescape r'
        else if Ascii.eqb e "n" then chr 10 :: python_unescape r'
        else if Ascii.eqb e "r" then chr 13 :: python_unescape r'
        else if Ascii.eqb e "t" then chr 9 :: python_unescape r'
        else backslash :: e :: python_unescape r'
      end
    else c :: python_unescape r
  end.

(** Single-quoted SQL string constant: a recognised escape sequence is
    replaced; in any other sequence the backslash is ignored, so that
    '\z' is the one-character string z.  (Octal, hexadecimal and Unicode
    sequences do not occur in the statements and are left out.) *)
Fixpoint sql_unescape (s : list ascii) : list ascii :=
  match s with
  | [] => []
  | c :: r =>
    if Ascii.eqb c backslash then
      match r with
      | [] => []
      | e :: r' =>
        if Ascii.eqb e "n" then chr 10 :: sql_unescape r'
        else if Ascii.eqb e "r" then chr 13 :: sql_unescape r'
        else if Ascii.eqb e "t" then chr 9 :: sql_unescape r'
        else if Ascii.eqb e "b" then chr 8 :: sql_unescape r'
        else if Ascii.eqb e "f" then chr 12 :: sql_unescape r'
        else if Ascii.eqb e "0" then chr 0 :: sql_unescape r'
        else e :: sql_unescape r'
      end
    else c :: sql_unescape r
  end.

(** A bracket expression [[...]] or [[^...]]: the only kind of pattern the
    statements use. *)
Inductive class_item :=
| CRange (lo hi : ascii)
| CChar (c : ascii)
| CSpace
| CDigit
| CWord.

Record char_class := { negated : bool; items : list class_item }.

Definition escape_item (e : ascii) : class_item :=
  if Ascii.eqb e "s" then CSpace
  else if Ascii.eqb e "d" then CDigit
  else if Ascii.eqb e "w" then CWord
  else CChar e.

(** Items up to the closing bracket, which must end the pattern. *)
Fixpoint class_items (p : list ascii) : option (list class_item) :=
  match p with
  | [] => None
  | c :: r =>
    if Ascii.eqb c "]" then
      match r with [] => Some [] | _ => None end
    else if Ascii.eqb c backslash then
      match r with
      | e :: r' => option_map (cons (escape_item e)) (class_items r')
      | [] => None
      end
    else
      match r with
      | d :: hi :: r' =>
        if Ascii.eqb d "-" && negb (Ascii.eqb hi "]")
        then option_map (cons (CRange c hi)) (class_items r')
        else option_map (cons (CChar c)) (class_items r)
      | _ => option_map (cons (CChar c)) (class_items r)
      end
  end.

Definition regex_class (p : list ascii) : option char_class :=
  match p with
  | o :: n :: r =>
    if Ascii.eqb o "[" then
      if Ascii.eqb n "^"
      then option_map (Build_char_class true) (class_items r)
      else option_map (Build_char_class false) (class_items (n :: r))
    else None
  | _ => None
  end.

Definition code (c : ascii) : N := N_of_ascii c.

Definition in_range (lo hi c : ascii) : bool :=
  ((code lo <=? code c) && (code c <=? code hi))%N.

Definition is_space (c : ascii) : bool :=
  ((code c =? 32) || ((9 <=? code c) && (code c <=? 13)))%N.

Definition is_digit (c : ascii) : bool := in_range "0" "9" c.

Definition is_letter (c : ascii) : bool :=
  in_range "a" "z" c || in_range "A" "Z" c.

Definition item_matches (c : ascii) (i : class_item) : bool :=
  match i with
  | CRange lo hi => in_range lo hi c
  | CChar x => Ascii.eqb x c
  | CSpace => is_space c
  | CDigit => is_digit c
  | CWord => is_letter c || is_digit c || Ascii.eqb c "_"
  end.

Definition class_matches (cls : char_class) (c : ascii) : bool :=
  xorb (negated cls) (existsb (item_matches c) (items cls)).

(** REGEXP_REPLACE(s, '[...]', ''): every character the class matches is
    removed. *)
Definition regexp_delete (cls : char_class) (s : string) : string :=
  string_of_list_ascii
    (filter (fun c => negb (class_matches cls c)) (list_ascii_of_string s)).

(** The pattern as it is typed between the quotes in the .py file. *)
Definition clean_pattern_py : string := "[^a-zA-Z0-9\\s\\.,-]".

(** The characters of the SQL constant in the statement text. *)
Definition clean_pattern_sql : list ascii :=
  python_unescape (list_ascii_of_string clean_pattern_py).

(** The value of the constant: the pattern the engine compiles. *)
Definition clean_pattern : list ascii := sql_unescape clean_pattern_sql.

Definition clean_class : char_class :=
  Eval cbv in
    match regex_class clean_pattern with
    | Some cls => cls
    | None => Build_char_class false []
    end.

(** REGEXP_REPLACE(x, '[^a-zA-Z0-9\\s\\.,-]', '') *)
Definition clean (x : option string) : option string :=
  option_map (regexp_delete clean_class) x.

(** ** Tables

    Column types are not declared in the repository; every column is
    nullable, identifiers and free text are strings, NUMBER columns are
    integers. *)

Module Stg.
(** STG.raw_data.ORDERS *)
Record row := {
  RowID : option Z;
  OrderID : option string;
  OrderDate : option string;
  ShipDate : option string;
  ShipMode : option string;
  CustomerID : option string;
  Segment : option string;
  Country : option string;
  ProductID : option string;
  Sales : option Z;
  Quantity : option Z;
  Discount : option Z;
  Profit : option Z;
  postalcode : option string;
  CustomerName : option string;
  City : option string;
  State : option string;
  Region : option string;
  Category : option string;
  ProductName : option string;
  tbl_dt : option Z;
  ingested_at : option string;
  FILE_NAME : option string;
  offset_id : option Z
}.
End Stg.

Module SubMap.
(** transformed.public.PRODUCT_SUBCATEGORY_MAP *)
Record row := { PRODUCTNAME : option string; SUBCATEGORY : option string }.
End SubMap.

Module Orders.
(** Transformed.public.ORDERS, the cleaned orders *)
Record row := {
  RowID : option Z;
  OrderID : option string;
  OrderDate : option date;
  ShipDate : option date;
  ShipMode : option string;
  CustomerID : option string;
  Segment : option string;
  Country : option string;
  ProductID : option string;
  Sales : option Z;
  Quantity : option Z;
  Discount : option Z;
  Profit : option Z;
  postalcode : option string;
  CustomerName : option string;
  City : option string;
  State : option string;
  Region : option string;
  Category : option string;
  SubCategory : option string;
  ProductName : option string;
  actual_date : option date;
  TBL_DT : option Z;
  ingested_at : option string;
  FILE_NAME : option string;
  offset_id : option Z
}.
End Orders.

Module Customers.
Record row := {
  customerid : option string;
  customername : option string;
  segment : option string
}.
End Customers.

Module Products.
Record row := {
  productid : option string;
  category : option string;
  subcategory : option string;
  productname : option string
}.
End Products.

Module Place.
(** The five columns that identify a geography member. *)
Record row := {
  country : option string;
  city : option string;
  state : option string;
  postalcode : option string;
  region : option string
}.
End Place.

Module Geography.
Record row := { geography_id : option Z; place : Place.row }.
End Geography.

Module Fact.
Record row := {
  orderid : option string;
  orderdate : option date;
  shipdate : option date;
  shipmode : option string;
  sales : option Z;
  quantity : option Z;
  discount : option Z;
  profit : option Z;
  customerid : option string;
  productid : option string;
  geoid : option Z
}.
End Fact.

(** The warehouse.  [geography_id_default] is the default of the surrogate
    key column, which the INSERT of the geography merge does not list: the
    value a new row receives, given the rows already in the table. *)
Record Warehouse := {
  STG_ORDERS : list Stg.row;
  PRODUCT_SUBCATEGORY_MAP : list SubMap.row;
  ORDERS : list Orders.row;
  customers : list Customers.row;
  products : list Products.row;
  geography : list Geography.row;
  fact_orders : list Fact.row;
  geography_id_default : list Geography.row -> option Z
}.

Definition set_ORDERS (w : Warehouse) (t : list Orders.row) : Warehouse :=
  Build_Warehouse (STG_ORDERS w) (PRODUCT_SUBCATEGORY_MAP w) t (customers w)
    (products w) (geography w) (fact_orders w) (geography_id_default w).

Definition set_customers (w : Warehouse) (t : list Customers.row) : Warehouse :=
  Build_Warehouse (STG_ORDERS w) (PRODUCT_SUBCATEGORY_MAP w) (ORDERS w) t
    (products w) (geography w) (fact_orders w) (geography_id_default w).

Definition set_products (w : Warehouse) (t : list Products.row) : Warehouse :=
  Build_Warehouse (STG_ORDERS w) (PRODUCT_SUBCATEGORY_MAP w) (ORDERS w)
    (customers w) t (geography w) (fact_orders w) (geography_id_default w).

Definition set_geography (w : Warehouse) (t : list Geography.row) : Warehouse :=
  Build_Warehouse (STG_ORDERS w) (PRODUCT_SUBCATEGORY_MAP w) (ORDERS w)
    (customers w) (products w) t (fact_orders w) (geography_id_default w).

Definition set_fact_orders (w : Warehouse) (t : list Fact.row) : Warehouse :=
  Build_Warehouse (STG_ORDERS w) (PRODUCT_SUBCATEGORY_MAP w) (ORDERS w)
    (customers w) (products w) (geography w) t (geography_id_default w).

(** ** Relational operators *)

(** WHERE with a condition that can fail the statement. *)
Fixpoint where_ {A} (p : A -> outcome bool) (l : list A) : outcome (list A) :=
  match l with
  | [] => Success []
  | x :: r =>
    b <- p x ;;
    r' <- where_ p r ;;
    Success (if b then x :: r' else r')
  end.

(** MAX ignores NULL and is NULL on no value. *)
Definition sql_max (l : list (option Z)) : option Z :=
  fold_right
    (fun x acc =>
       match x, acc with
       | Some a, Some b => Some (Z.max a b)
       | Some a, None => Some a
       | None, _ => acc
       end) None l.

Definition COALESCE (x : option string) (d : string) : option string :=
  match x with
  | Some v => Some v
  | None => Some d
  end.

Definition is_not_null {A} (x : option A) : bool :=
  match x with
  | Some _ => true
  | None => false
  end.

(** Equality as GROUP BY and DISTINCT see it: NULL is one value. *)
Definition opt_string_dec (a b : option string) : {a = b} + {a <> b}.
Proof. decide equality. apply string_dec. Defined.

Definition customers_row_dec (a b : Customers.row) : {a = b} + {a <> b}.
Proof. decide equality; apply opt_string_dec. Defined.

Definition products_row_dec (a b : Products.row) : {a = b} + {a <> b}.
Proof. decide equality; apply opt_string_dec. Defined.

Definition place_row_dec (a b : Place.row) : {a = b} + {a <> b}.
Proof. decide equality; apply opt_string_dec. Defined.

(** The source rows of a MERGE that no target row matches.  The target is
    read as it stands before the statement: rows the statement itself
    inserts are not seen by the ON condition. *)
Definition not_matched {T S} (on : T -> S -> bool)
           (target : list T) (source : list S) : list S :=
  filter (fun s => negb (existsb (fun t => on t s) target)) source.

(** ** RUN_INSERT_ORDERS *)

(** One row of the CTE [latest_files]. *)
Record latest_file := {
  business_month : option string;
  max_tbl_dt : option Z
}.

(** TO_CHAR(TRY_TO_DATE(OrderDate, 'DD-MM-YYYY'), 'YYYYMM') *)
Definition order_month (o : Stg.row) : option string :=
  TO_CHAR (TRY_TO_DATE (Stg.OrderDate o) "DD-MM-YYYY") "YYYYMM".

(** DATE_TRUNC('MONTH', ADD_MONTHS(CURRENT_DATE, -1)) *)
Definition stable_month (today : date) : date :=
  DATE_TRUNC_MONTH (ADD_MONTHS today (-1)).

(** The WHERE of [latest_files]:
    DATE_TRUNC('MONTH', TO_DATE(tbl_dt::STRING, 'YYYYMMDD')) = the stable
    month. *)
Definition in_stable_month (today : date) (o : Stg.row) : outcome bool :=
  d <- TO_DATE (cast_string (Stg.tbl_dt o)) "YYYYMMDD" ;;
  Success (date_eq (option_map DATE_TRUNC_MONTH d) (Some (stable_month today))).

Definition same_month (g : option string) (o : Stg.row) : bool :=
  if opt_string_dec (order_month o) g then true else false.

(** GROUP BY 1 with MAX(tbl_dt). *)
Definition group_latest (rows : list Stg.row) : list latest_file :=
  map (fun g =>
         {| business_month := g;
            max_tbl_dt := sql_max (map Stg.tbl_dt (filter (same_month g) rows)) |})
      (nodup opt_string_dec (map order_month rows)).

Definition latest_files (today : date) (stg : list Stg.row)
  : outcome (list latest_file) :=
  rows <- where_ (in_stable_month today) stg ;;
  Success (group_latest rows).

(** JOIN latest_files lf ON ... = lf.business_month AND o.tbl_dt = lf.max_tbl_dt *)
Definition join_latest (o : Stg.row) (lf : latest_file) : bool :=
  str_eq (order_month o) (business_month lf) &&
  num_eq (Stg.tbl_dt o) (max_tbl_dt lf).

(** LEFT JOIN PRODUCT_SUBCATEGORY_MAP m ON REGEXP_REPLACE(o.ProductName, ...) = m.PRODUCTNAME *)
Definition join_map (o : Stg.row) (m : SubMap.row) : bool :=
  str_eq (clean (Stg.ProductName o)) (SubMap.PRODUCTNAME m).

Definition left_join_map (map_rows : list SubMap.row) (o : Stg.row)
  : list (option SubMap.row) :=
  match filter (join_map o) map_rows with
  | [] => [None]
  | ms => map Some ms
  end.

(** WHERE o.Profit > 0 AND TRY_TO_DATE(o.OrderDate, 'DD-MM-YYYY') IS NOT NULL *)
Definition accepted (o : Stg.row) : bool :=
  num_gt0 (Stg.Profit o) &&
  is_not_null (TRY_TO_DATE (Stg.OrderDate o) "DD-MM-YYYY").

(** The SELECT list. *)
Definition cleaned (o : Stg.row) (m : option SubMap.row) : Orders.row :=
  {| Orders.RowID := Stg.RowID o;
     Orders.OrderID := Stg.OrderID o;
     Orders.OrderDate := TRY_TO_DATE (Stg.OrderDate o) "DD-MM-YYYY";
     Orders.ShipDate := TRY_TO_DATE (Stg.ShipDate o) "DD-MM-YYYY";
     Orders.ShipMode := Stg.ShipMode o;
     Orders.CustomerID := Stg.CustomerID o;
     Orders.Segment := Stg.Segment o;
     Orders.Country := Stg.Country o;
     Orders.ProductID := Stg.ProductID o;
     Orders.Sales := Stg.Sales o;
     Orders.Quantity := Stg.Quantity o;
     Orders.Discount := Stg.Discount o;
     Orders.Profit := Stg.Profit o;
     Orders.postalcode := Stg.postalcode o;
     Orders.CustomerName := clean (Stg.CustomerName o);
     Orders.City := clean (Stg.City o);
     Orders.State := clean (Stg.State o);
     Orders.Region := clean (Stg.Region o);
     Orders.Category := clean (Stg.Category o);
     Orders.SubCategory :=
       COALESCE (match m with
                 | Some r => SubMap.SUBCATEGORY r
                 | None => None
                 end) "Unmapped";
     Orders.ProductName := clean (Stg.ProductName o);
     Orders.actual_date := TRY_TO_DATE (Stg.OrderDate o) "DD-MM-YYYY";
     Orders.TBL_DT := Stg.tbl_dt o;
     Orders.ingested_at := Stg.ingested_at o;
     Orders.FILE_NAME := Stg.FILE_NAME o;
     Orders.offset_id := Stg.offset_id o |}.

(** The rows the SELECT yields for one staging row. *)
Definition select_orders (lfs : list latest_file) (map_rows : list SubMap.row)
           (o : Stg.row) : list Orders.row :=
  flat_map
    (fun lf =>
       if join_latest o lf then
         flat_map (fun m => if accepted o then [cleaned o m] else [])
                  (left_join_map map_rows o)
       else [])
    lfs.

(** The rows one execution appends to the cleaned orders. *)
Definition inserted_orders (today : date) (w : Warehouse)
  : outcome (list Orders.row) :=
  lfs <- latest_files today (STG_ORDERS w) ;;
  Success (flat_map (select_orders lfs (PRODUCT_SUBCATEGORY_MAP w)) (STG_ORDERS w)).

Definition RUN_INSERT_ORDERS (today : date) (w : Warehouse) : outcome Warehouse :=
  rows <- inserted_orders today w ;;
  Success (set_ORDERS w (ORDERS w ++ rows)).

(** ** RUN_INSERT_CUSTOMERS *)

(** SELECT DISTINCT customerid, customername, segment FROM orders *)
Definition customer_of (r : Orders.row) : Customers.row :=
  {| Customers.customerid := Orders.CustomerID r;
     Customers.customername := Orders.CustomerName r;
     Customers.segment := Orders.Segment r |}.

Definition customers_source (o : list Orders.row) : list Customers.row :=
  nodup customers_row_dec (map customer_of o).

Definition customers_on (c s : Customers.row) : bool :=
  str_eq (Customers.customerid c) (Customers.customerid s).

Definition RUN_INSERT_CUSTOMERS (w : Warehouse) : Warehouse :=
  set_customers w
    (customers w ++
     not_matched customers_on (customers w) (customers_source (ORDERS w))).

(** ** RUN_INSERT_PRODUCTS *)

(** SELECT DISTINCT productid, category, subcategory, productname FROM orders *)
Definition product_of (r : Orders.row) : Products.row :=
  {| Products.productid := Orders.ProductID r;
     Products.category := Orders.Category r;
     Products.subcategory := Orders.SubCategory r;
     Products.productname := Orders.ProductName r |}.

Definition products_source (o : list Orders.row) : list Products.row :=
  nodup products_row_dec (map product_of o).

Definition products_on (p s : Products.row) : bool :=
  str_eq (Products.productid p) (Products.productid s).

Definition RUN_INSERT_PRODUCTS (w : Warehouse) : Warehouse :=
  set_products w
    (products w ++
     not_matched products_on (products w) (products_source (ORDERS w))).

(** ** RUN_INSERT_GEOGRAPHY *)

Definition place_of (r : Orders.row) : Place.row :=
  {| Place.country := Orders.Country r;
     Place.city := Orders.City r;
     Place.state := Orders.State r;
     Place.postalcode := Orders.postalcode r;
     Place.region := Orders.Region r |}.

(** SELECT DISTINCT country, city, state, postalcode, region FROM orders *)
Definition geography_source (o : list Orders.row) : list Place.row :=
  nodup place_row_dec (map place_of o).

Definition place_eq (a b : Place.row) : bool :=
  str_eq (Place.country a) (Place.country b) &&
  str_eq (Place.city a) (Place.city b) &&
  str_eq (Place.state a) (Place.state b) &&
  str_eq (Place.postalcode a) (Place.postalcode b) &&
  str_eq (Place.region a) (Place.region b).

Definition geography_on (g : Geography.row) (s : Place.row) : bool :=
  place_eq (Geography.place g) s.

(** The new rows are appended one by one, each taking the default of
    [geography_id] at that moment. *)
Fixpoint insert_geography (next : list Geography.row -> option Z)
         (g : list Geography.row) (new : list Place.row) : list Geography.row :=
  match new with
  | [] => g
  | s :: r =>
    insert_geography next
      (g ++ [{| Geography.geography_id := next g; Geography.place := s |}]) r
  end.

Definition RUN_INSERT_GEOGRAPHY (w : Warehouse) : Warehouse :=
  set_geography w
    (insert_geography (geography_id_default w) (geography w)
       (not_matched geography_on (geography w) (geography_source (ORDERS w)))).

(** ** RUN_INSERT_FACT_ORDER *)

Definition fact_row (o : Orders.row) (c : Customers.row) (p : Products.row)
           (g : Geography.row) : Fact.row :=
  {| Fact.orderid := Orders.OrderID o;
     Fact.orderdate := Orders.OrderDate o;
     Fact.shipdate := Orders.ShipDate o;
     Fact.shipmode := Orders.ShipMode o;
     Fact.sales := Orders.Sales o;
     Fact.quantity := Orders.Quantity o;
     Fact.discount := Orders.Discount o;
     Fact.profit := Orders.Profit o;
     Fact.customerid := Customers.customerid c;
     Fact.productid := Products.productid p;
     Fact.geoid := Geography.geography_id g |}.

Definition join_customer (o : Orders.row) (c : Customers.row) : bool :=
  str_eq (Orders.CustomerID o) (Customers.customerid c).

Definition join_product (o : Orders.row) (p : Products.row) : bool :=
  str_eq (Orders.ProductID o) (Products.productid p).

Definition join_geography (o : Orders.row) (g : Geography.row) : bool :=
  place_eq (place_of o) (Geography.place g).

(** The rows of the USING subquery that come from one cleaned order. *)
Definition fact_candidates (w : Warehouse) (o : Orders.row) : list Fact.row :=
  flat_map
    (fun c =>
       flat_map
         (fun p =>
            map (fact_row o c p) (filter (join_geography o) (geography w)))
         (filter (join_product o) (products w)))
    (filter (join_customer o) (customers w)).

Definition fact_source (w : Warehouse) : list Fact.row :=
  flat_map (fact_candidates w) (ORDERS w).

Definition fact_on (f s : Fact.row) : bool :=
  str_eq (Fact.orderid f) (Fact.orderid s).

Definition RUN_INSERT_FACT_ORDER (w : Warehouse) : Warehouse :=
  set_fact_orders w
    (fact_orders w ++ not_matched fact_on (fact_orders w) (fact_source w)).

(** ** The DAG

    start >> RUN_INSERT_ORDERS >> RUN_INSERT_CUSTOMERS >> RUN_INSERT_PRODUCTS
    >> RUN_INSERT_GEOGRAPHY >> RUN_INSERT_FACT_ORDER >> end.  Each statement
    commits on its own; a task runs only when the one before it succeeded. *)

Definition merge_steps (w : Warehouse) : Warehouse :=
  RUN_INSERT_FACT_ORDER
    (RUN_INSERT_GEOGRAPHY (RUN_INSERT_PRODUCTS (RUN_INSERT_CUSTOMERS w))).

(** The five tasks that carry a statement ([start] and [end] are empty
    operators). *)
Inductive task :=
| task_orders
| task_customers
| task_products
| task_geography
| task_fact_order.

Definition dag_tasks : list task :=
  [task_orders; task_customers; task_products; task_geography;
   task_fact_order].

(** The statement of a task, as the text of the statement decides it. *)
Definition statement (today : date) (t : task) (w : Warehouse)
  : outcome Warehouse :=
  match t with
  | task_orders => RUN_INSERT_ORDERS today w
  | task_customers => Success (RUN_INSERT_CUSTOMERS w)
  | task_products => Success (RUN_INSERT_PRODUCTS w)
  | task_geography => Success (RUN_INSERT_GEOGRAPHY w)
  | task_fact_order => Success (RUN_INSERT_FACT_ORDER w)
  end.

(** One task.  The engine can reject a statement for a reason the file
    does not decide (connection, privileges, a constraint of the table
    definitions, which are not in the repository): [engine_error] says of
    which tasks it does.  A rejected statement changes nothing. *)
Definition run_task (engine_error : task -> bool) (today : date) (t : task)
           (w : Warehouse) : outcome Warehouse :=
  if engine_error t then SqlFailure else statement today t w.

(** The tasks in order: the first failure stops the run, and what the
    earlier statements committed stays. *)
Fixpoint run_tasks (engine_error : task -> bool) (today : date)
         (ts : list task) (w : Warehouse) : Warehouse * bool :=
  match ts with
  | [] => (w, true)
  | t :: r =>
    match run_task engine_error today t w with
    | Success w' => run_tasks engine_error today r w'
    | SqlFailure => (w, false)
    end
  end.

(** The warehouse after one run, and whether the run succeeded. *)
Definition run_dag (engine_error : task -> bool) (today : date)
           (w : Warehouse) : Warehouse * bool :=
  run_tasks engine_error today dag_tasks w.

(** An engine that rejects nothing, and one that rejects one task. *)
Definition no_error (t : task) : bool := false.

Definition task_eqb (a b : task) : bool :=
  match a, b with
  | task_orders, task_orders => true
  | task_customers, task_customers => true
  | task_products, task_products => true
  | task_geography, task_geography => true
  | task_fact_order, task_fact_order => true
  | _, _ => false
  end.

Definition error_at (a : task) (t : task) : bool := task_eqb a t.

(** ** A sample warehouse *)

Definition stg_row (rowid : Z) (orderid order_date : string) (cust cname : string)
           (prod pname : string) (profit tbl : Z) (zip : option string)
  : Stg.row :=
  {| Stg.RowID := Some rowid;
     Stg.OrderID := Some orderid;
     Stg.OrderDate := Some order_date;
     Stg.ShipDate := Some order_date;
     Stg.ShipMode := Some "Standard Class";
     Stg.CustomerID := Some cust;
     Stg.Segment := Some "Consumer";
     Stg.Country := Some "United States";
     Stg.ProductID := Some prod;
     Stg.Sales := Some 26196;
     Stg.Quantity := Some 2;
     Stg.Discount := Some 0;
     Stg.Profit := Some profit;
     Stg.postalcode := zip;
     Stg.CustomerName := Some cname;
     Stg.City := Some "Henderson";
     Stg.State := Some "Kentucky";
     Stg.Region := Some "South";
     Stg.Category := Some "Furniture";
     Stg.ProductName := Some pname;
     Stg.tbl_dt := Some tbl;
     Stg.ingested_at := Some "2024-03-31 23:00:00";
     Stg.FILE_NAME := Some "orders.csv";
     Stg.offset_id := Some rowid |}.

Definition autoincrement (g : list Geography.row) : option Z :=
  Some (Z.of_nat (List.length g) + 1).

Definition warehouse_of (stg : list Stg.row) : Warehouse :=
  {| STG_ORDERS := stg;
     PRODUCT_SUBCATEGORY_MAP :=
       [{| SubMap.PRODUCTNAME := Some "Chair1"; SubMap.SUBCATEGORY := Some "Chairs" |}];
     ORDERS := [];
     customers := [];
     products := [];
     geography := [];
     fact_orders := [];
     geography_id_default := autoincrement |}.

Definition april_1st : date := mkdate 2024 4 1.

Definition chair : Stg.row :=
  stg_row 1 "CA-2024-152156" "15-03-2024" "CG-12520" "Claire Gute"
          "FUR-CH-10000454" "Chair #1!" 100 20240331 (Some "42420").

(** ** Notions the properties are stated with *)

(** The rows one execution appends to the cleaned orders: none when the
    statement fails. *)
Definition loaded (today : date) (w : Warehouse) : list Orders.row :=
  match inserted_orders today w with
  | Success rows => rows
  | SqlFailure => []
  end.

(** The month of an ingestion marker read as YYYYMMDD. *)
Definition tbl_dt_month (x : option Z) : option date :=
  option_map DATE_TRUNC_MONTH (TRY_TO_DATE (cast_string x) "YYYYMMDD").

(** [T] is the greatest ingestion marker among the staging rows of the
    stable month whose order date falls in business month [g]. *)
Definition batch_max (today : date) (stg : list Stg.row)
           (g : option string) (T : Z) : Prop :=
  (exists o, In o stg /\
             tbl_dt_month (Stg.tbl_dt o) = Some (stable_month today) /\
             order_month o = g /\ Stg.tbl_dt o = Some T) /\
  (forall o T', In o stg ->
                tbl_dt_month (Stg.tbl_dt o) = Some (stable_month today) ->
                order_month o = g -> Stg.tbl_dt o = Some T' -> T' <= T).

(** No NULL among the five columns of a place. *)
Definition place_complete (s : Place.row) : Prop :=
  Place.country s <> None /\ Place.city s <> None /\ Place.state s <> None /\
  Place.postalcode s <> None /\ Place.region s <> None.

(** [new] is [old] with rows added after it: the rows of [old] are all
    there, unchanged. *)
Definition extends {A} (old new : list A) : Prop :=
  exists added, new = old ++ added.

Definition tables_extend (w w' : Warehouse) : Prop :=
  extends (customers w) (customers w') /\
  extends (products w) (products w') /\
  extends (geography w) (geography w') /\
  extends (fact_orders w) (fact_orders w').

(** The rows each merge inserts. *)
Definition customers_inserted (w : Warehouse) : list Customers.row :=
  not_matched customers_on (customers w) (customers_source (ORDERS w)).

Definition products_inserted (w : Warehouse) : list Products.row :=
  not_matched products_on (products w) (products_source (ORDERS w)).

Definition fact_inserted (w : Warehouse) : list Fact.row :=
  not_matched fact_on (fact_orders w) (fact_source w).

(** A cleaned order lacks a dimension row. *)
Definition customer_absent (w : Warehouse) (o : Orders.row) : Prop :=
  ~ In (Orders.CustomerID o) (map Customers.customerid (customers w)).

Definition product_absent (w : Warehouse) (o : Orders.row) : Prop :=
  ~ In (Orders.ProductID o) (map Products.productid (products w)).

Definition place_absent (w : Warehouse) (o : Orders.row) : Prop :=
  ~ In (place_of o) (map Geography.place (geography w)).

(** ** More sample data *)

(** An earlier March batch of the same order line. *)
Definition chair_early : Stg.row :=
  stg_row 1 "CA-2024-152156" "15-03-2024" "CG-12520" "Claire Gute"
          "FUR-CH-10000454" "Chair #1!" 100 20240310 (Some "42420").

(** A second line of the same order. *)
Definition table : Stg.row :=
  stg_row 2 "CA-2024-152156" "15-03-2024" "CG-12520" "Claire Gute"
          "FUR-TA-10000577" "Table" 4191 20240331 (Some "42420").

(** A line sold at a loss, and one whose date is written year first. *)
Definition loss : Stg.row :=
  stg_row 3 "US-2024-108966" "11-03-2024" "SO-20335" "Sean ODonnell"
          "OFF-ST-10000760" "Storage" (-38310) 20240331 (Some "33311").

Definition year_first : Stg.row :=
  stg_row 4 "CA-2024-115812" "2024-03-09" "BH-11710" "Brosina Hoffman"
          "OFF-AR-10002833" "Art" 1415 20240331 (Some "90032").

(** An order of a place without postal code. *)
Definition no_zip : Stg.row :=
  stg_row 5 "US-2024-150630" "17-03-2024" "TB-21520" "Tracy Blumstein"
          "FUR-BO-10004834" "Bookcase" 1200 20240331 None.

(** February orders ingested in March, in two batches. *)
Definition february_early : Stg.row :=
  stg_row 6 "CA-2024-138688" "20-02-2024" "DV-13045" "Darrin Van Huff"
          "OFF-LA-10000240" "Labels" 687 20240310 (Some "90036").

Definition february_late : Stg.row :=
  stg_row 7 "CA-2024-138689" "21-02-2024" "DV-13045" "Darrin Van Huff"
          "OFF-LA-10000240" "Labels" 687 20240331 (Some "90036").

Definition unmapped (o : Stg.row) : Orders.row := cleaned o None.

(** Cleaned orders in which one customer id appears under two names. *)
Definition renamed (r : Orders.row) (name : string) : Orders.row :=
  {| Orders.RowID := Orders.RowID r;
     Orders.OrderID := Orders.OrderID r;
     Orders.OrderDate := Orders.OrderDate r;
     Orders.ShipDate := Orders.ShipDate r;
     Orders.ShipMode := Orders.ShipMode r;
     Orders.CustomerID := Orders.CustomerID r;
     Orders.Segment := Orders.Segment r;
     Orders.Country := Orders.Country r;
     Orders.ProductID := Orders.ProductID r;
     Orders.Sales := Orders.Sales r;
     Orders.Quantity := Orders.Quantity r;
     Orders.Discount := Orders.Discount r;
     Orders.Profit := Orders.Profit r;
     Orders.postalcode := Orders.postalcode r;
     Orders.CustomerName := Some name;
     Orders.City := Orders.City r;
     Orders.State := Orders.State r;
     Orders.Region := Orders.Region r;
     Orders.Category := Orders.Category r;
     Orders.SubCategory := Orders.SubCategory r;
     Orders.ProductName := Orders.ProductName r;
     Orders.actual_date := Orders.actual_date r;
     Orders.TBL_DT := Orders.TBL_DT r;
     Orders.ingested_at := Orders.ingested_at r;
     Orders.FILE_NAME := Orders.FILE_NAME r;
     Orders.offset_id := Orders.offset_id r |}.

Definition two_names : Warehouse :=
  set_ORDERS (warehouse_of [])
             [renamed (unmapped chair) "Claire Gute";
              renamed (unmapped table) "C. Gute"].

(** The warehouse once the orders of a staging table are loaded, and once
    the three dimensions are merged as well. *)
Definition orders_loaded (stg : list Stg.row) : Warehouse :=
  match RUN_INSERT_ORDERS april_1st (warehouse_of stg) with
  | Success w => w
  | SqlFailure => warehouse_of stg
  end.

Definition dimensions_merged (stg : list Stg.row) : Warehouse :=
  RUN_INSERT_GEOGRAPHY
    (RUN_INSERT_PRODUCTS (RUN_INSERT_CUSTOMERS (orders_loaded stg))).

(** The characters the cleaning pattern lets through. *)
Definition kept_char (c : ascii) : bool :=
  is_letter c || is_digit c ||
  Ascii.eqb c "." || Ascii.eqb c "," || Ascii.eqb c "-".

(** The class the pattern would denote if the two backslashes of the
    statement text reached the regular-expression engine. *)
Definition escaped_class : char_class :=
  Eval cbv in
    match regex_class clean_pattern_sql with
    | Some cls => cls
    | None => Build_char_class false []
    end.

(** A January order from the January batch. *)
Definition january : Stg.row :=
  stg_row 8 "CA-2024-100006" "15-01-2024" "DK-13375" "Dennis Kane"
          "TEC-PH-10002075" "Phone" 10931 20240131 (Some "10024").

Definition march_staging : list Stg.row :=
  [chair; chair_early; table; loss; year_first; no_zip;
   february_early; february_late; january].

Definition march_latest : list latest_file :=
  [{| business_month := None; max_tbl_dt := Some 20240331 |};
   {| business_month := Some "202403"; max_tbl_dt := Some 20240331 |};
   {| business_month := Some "202402"; max_tbl_dt := Some 20240331 |}].

Definition chairs_entry : SubMap.row :=
  {| SubMap.PRODUCTNAME := Some "Chair1"; SubMap.SUBCATEGORY := Some "Chairs" |}.

(** A staging table in which the batch of 10 March is the latest for the
    March orders but not for the February ones. *)
Definition mixed_staging : list Stg.row :=
  [chair_early; february_early; february_late].

Definition mixed_latest : list latest_file :=
  [{| business_month := Some "202403"; max_tbl_dt := Some 20240310 |};
   {| business_month := Some "202402"; max_tbl_dt := Some 20240331 |}].

(** The fact merge run before the geography merge. *)
Definition geography_pending (stg : list Stg.row) : Warehouse :=
  RUN_INSERT_PRODUCTS (RUN_INSERT_CUSTOMERS (orders_loaded stg)).

(** No NULL in any natural-key column of a cleaned order. *)
Definition keys_complete (o : Orders.row) : Prop :=
  Orders.CustomerID o <> None /\ Orders.ProductID o <> None /\
  Orders.OrderID o <> None /\ place_complete (place_of o).

(** A NULL in at least one of the five columns of a place. *)
Definition place_has_null (s : Place.row) : Prop :=
  Place.country s = None \/ Place.city s = None \/ Place.state s = None \/
  Place.postalcode s = None \/ Place.region s = None.

(** The staging row lies in the stable month of the execution. *)
Definition in_stable (today : date) (o : Stg.row) : Prop :=
  tbl_dt_month (Stg.tbl_dt o) = Some (stable_month today).

(** A staging table in which one marker is not a date. *)
Definition bad_marker : Stg.row :=
  stg_row 9 "CA-2023-100007" "15-06-2023" "DK-13375" "Dennis Kane"
          "TEC-PH-10002075" "Phone" 10931 20230631 (Some "10024").

(** A map with two entries for one cleaned product name. *)
Definition double_map : list SubMap.row :=
  [chairs_entry;
   {| SubMap.PRODUCTNAME := Some "Chair1"; SubMap.SUBCATEGORY := None |}].

(** A staging row without ingestion marker. *)
Definition no_marker : Stg.row :=
  {| Stg.RowID := Some 10;
     Stg.OrderID := Some "CA-2024-161389";
     Stg.OrderDate := Some "12-03-2024";
     Stg.ShipDate := Some "14-03-2024";
     Stg.ShipMode := Some "Second Class";
     Stg.CustomerID := Some "IM-15070";
     Stg.Segment := Some "Consumer";
     Stg.Country := Some "United States";
     Stg.ProductID := Some "OFF-BI-10003656";
     Stg.Sales := Some 40754;
     Stg.Quantity := Some 3;
     Stg.Discount := Some 20;
     Stg.Profit := Some 13245;
     Stg.postalcode := Some "98103";
     Stg.CustomerName := Some "Irene Maddox";
     Stg.City := Some "Seattle";
     Stg.State := Some "Washington";
     Stg.Region := Some "West";
     Stg.Category := Some "Office Supplies";
     Stg.ProductName := Some "Binder";
     Stg.tbl_dt := None;
     Stg.ingested_at := None;
     Stg.FILE_NAME := Some "orders.csv";
     Stg.offset_id := Some 10 |}.

(** The sample warehouse with the doubled map. *)
Definition double_map_warehouse : Warehouse :=
  {| STG_ORDERS := [chair];
     PRODUCT_SUBCATEGORY_MAP := double_map;
     ORDERS := [];
     customers := [];
     products := [];
     geography := [];
     fact_orders := [];
     geography_id_default := autoincrement |}.

(** ** Basic facts *)

Lemma date_eqb_eq (a b : date) : date_eqb a b = true <-> a = b.
Proof.
  destruct a as [ya ma da], b as [yb mb db]; unfold date_eqb; simpl.
  rewrite !andb_true_iff, !Z.eqb_eq. split.
  - intros [[-> ->] ->]; reflexivity.
  - intros E; injection E; auto.
Qed.

Lemma str_eq_true (a b : option string) :
  str_eq a b = true <-> exists s, a = Some s /\ b = Some s.
Proof.
  destruct a as [x|], b as [y|]; simpl; split; try discriminate.
  - intros E. apply String.eqb_eq in E. subst. eauto.
  - intros (s & A & B). injection A as ->. injection B as ->. apply String.eqb_refl.
  - intros (s & A & B). discriminate.
  - intros (s & A & B). discriminate.
  - intros (s & A & B). discriminate.
Qed.

Lemma num_eq_true (a b : option Z) :
  num_eq a b = true <-> exists v, a = Some v /\ b = Some v.
Proof.
  destruct a as [x|], b as [y|]; simpl; split; try discriminate.
  - intros E. apply Z.eqb_eq in E. subst. eauto.
  - intros (s & A & B). injection A as ->. injection B as ->. apply Z.eqb_refl.
  - intros (s & A & B). discriminate.
  - intros (s & A & B). discriminate.
  - intros (s & A & B). discriminate.
Qed.

Lemma str_eq_refl (a : option string) : a <> None -> str_eq a a = true.
Proof.
  intros H. apply str_eq_true. destruct a as [s|]; [eauto | contradiction].
Qed.

Lemma str_eq_eq (a b : option string) : str_eq a b = true -> a = b.
Proof. intros H. apply str_eq_true in H as (s & -> & ->). reflexivity. Qed.

Lemma where_spec {A} (p : A -> outcome bool) (l r : list A) :
  where_ p l = Success r ->
  forall x, In x r <-> In x l /\ p x = Success true.
Proof.
  revert r. induction l as [|a l IH]; simpl; intros r H x.
  - injection H as <-. simpl. tauto.
  - destruct (p a) as [b|] eqn:Pa; simpl in H; [|discriminate].
    destruct (where_ p l) as [r'|] eqn:W; simpl in H; [|discriminate].
    injection H as <-. specialize (IH r' eq_refl x).
    destruct b; simpl; rewrite IH; split.
    + intros [->|[I Q]]; auto.
    + intros [[->|I] Q]; auto.
    + intros [I Q]; auto.
    + intros [[->|I] Q]; auto. rewrite Pa in Q. discriminate.
Qed.

Lemma where_failure {A} (p : A -> outcome bool) (l : list A) :
  where_ p l = SqlFailure <-> exists x, In x l /\ p x = SqlFailure.
Proof.
  induction l as [|a l IH]; simpl.
  - split; [discriminate | intros (x & [] & _)].
  - destruct (p a) as [b|] eqn:Pa; simpl.
    + destruct (where_ p l) as [r'|] eqn:W; simpl.
      * split; [discriminate|]. intros (x & [->|I] & Q).
        -- rewrite Pa in Q. discriminate.
        -- destruct IH as [_ IH]. discriminate IH. eauto.
      * split; [|reflexivity]. intros _.
        destruct IH as [IH _]. destruct (IH eq_refl) as (x & I & Q). eauto.
    + split; [|reflexivity]. intros _. eauto.
Qed.

Lemma in_stable_month_true (today : date) (o : Stg.row) :
  in_stable_month today o = Success true <->
  tbl_dt_month (Stg.tbl_dt o) = Some (stable_month today).
Proof.
  unfold in_stable_month, tbl_dt_month, TO_DATE, TRY_TO_DATE.
  destruct (cast_string (Stg.tbl_dt o)) as [s|]; cbn [bind option_map].
  - destruct (parse_date "YYYYMMDD" s) as [d|]; cbn [bind option_map].
    + unfold date_eq, sql_eq. split; intros H.
      * assert (E : date_eqb (DATE_TRUNC_MONTH d) (stable_month today) = true)
          by congruence.
        apply date_eqb_eq in E. rewrite E. reflexivity.
      * assert (E : DATE_TRUNC_MONTH d = stable_month today) by congruence.
        apply date_eqb_eq in E. rewrite E. reflexivity.
    + split; discriminate.
  - split; discriminate.
Qed.

Lemma sql_max_upper (l : list (option Z)) (T : Z) :
  sql_max l = Some T -> forall v, In (Some v) l -> v <= T.
Proof.
  revert T. induction l as [|x l IH]; simpl; intros T H v I; [contradiction|].
  fold (sql_max l) in *.
  destruct x as [a|].
  - destruct (sql_max l) as [b|] eqn:M.
    + injection H as <-. destruct I as [E|I].
      * injection E as ->. lia.
      * specialize (IH b eq_refl v I). lia.
    + injection H as <-. destruct I as [E|I].
      * injection E as ->. lia.
      * destruct l as [|y l']; [contradiction|].
        exfalso. clear IH. revert M I. generalize (y :: l'). intros l0.
        induction l0 as [|z l0 IH0]; simpl; [contradiction|].
        fold (sql_max l0). intros M [E|I].
        -- subst z. destruct (sql_max l0); discriminate.
        -- destruct z; [destruct (sql_max l0); discriminate|]. auto.
  - destruct I as [E|I]; [discriminate|]. auto.
Qed.

Lemma sql_max_attained (l : list (option Z)) (T : Z) :
  sql_max l = Some T -> In (Some T) l.
Proof.
  revert T. induction l as [|x l IH]; simpl; intros T H; [discriminate|].
  fold (sql_max l) in *.
  destruct x as [a|]; [|right; auto].
  destruct (sql_max l) as [b|] eqn:M.
  - injection H as <-. destruct (Z.max_spec a b) as [[_ ->]|[_ ->]]; auto.
  - injection H as <-. auto.
Qed.

Lemma sql_max_some (l : list (option Z)) (v : Z) :
  In (Some v) l -> exists T, sql_max l = Some T.
Proof.
  induction l as [|x l IH]; simpl; [contradiction|]. fold (sql_max l).
  intros [->|I].
  - destruct (sql_max l); eauto.
  - destruct (IH I) as (T & ->). destruct x; eauto.
Qed.

Lemma same_month_true (g : option string) (o : Stg.row) :
  same_month g o = true <-> order_month o = g.
Proof.
  unfold same_month. destruct (opt_string_dec (order_month o) g); split;
    auto; discriminate.
Qed.

Lemma tbl_dt_month_some (x : option Z) (m : date) :
  tbl_dt_month x = Some m -> exists v, x = Some v.
Proof. destruct x as [v|]; [eauto | discriminate]. Qed.

(** What the CTE computes: one row per business month met in the stable
    month, carrying the greatest marker of that group. *)
Lemma latest_files_spec (today : date) (stg : list Stg.row)
      (lfs : list latest_file) :
  latest_files today stg = Success lfs ->
  forall lf, In lf lfs ->
  exists T, max_tbl_dt lf = Some T /\ batch_max today stg (business_month lf) T.
Proof.
  unfold latest_files. intros H lf I.
  destruct (where_ (in_stable_month today) stg) as [fed|] eqn:W;
    cbn [bind] in H; [|discriminate].
  injection H as <-.
  pose proof (where_spec _ _ W) as F.
  unfold group_latest in I. apply in_map_iff in I as (g & <- & G).
  apply nodup_In in G. apply in_map_iff in G as (o0 & Eg & I0).
  cbn [business_month max_tbl_dt].
  set (col := map Stg.tbl_dt (filter (same_month g) fed)).
  assert (C : forall v, In (Some v) col <->
                        exists o, In o stg /\
                          tbl_dt_month (Stg.tbl_dt o) = Some (stable_month today) /\
                          order_month o = g /\ Stg.tbl_dt o = Some v).
  { intros v. unfold col. rewrite in_map_iff. split.
    - intros (o & E & Io). apply filter_In in Io as [Io S].
      apply F in Io as [Io Q]. apply in_stable_month_true in Q.
      apply same_month_true in S. eauto.
    - intros (o & Io & Q & S & E). exists o. split; [exact E|].
      apply filter_In. split.
      + apply F. split; [exact Io|]. apply in_stable_month_true. exact Q.
      + apply same_month_true. exact S. }
  assert (exists v0, In (Some v0) col) as (v0 & I1).
  { pose proof I0 as I0'. apply F in I0' as [Is Q]. apply in_stable_month_true in Q.
    destruct (tbl_dt_month_some _ Q) as (v0 & E0). exists v0.
    apply C. eauto. }
  destruct (sql_max_some _ _ I1) as (T & M). exists T. split; [exact M|].
  split.
  - apply C. apply sql_max_attained. exact M.
  - intros o T' Io Q S E. apply (sql_max_upper _ M). apply C. eauto.
Qed.

Lemma select_orders_in (lfs : list latest_file) (m : list SubMap.row)
      (o : Stg.row) (c : Orders.row) :
  In c (select_orders lfs m o) <->
  exists lf mr, In lf lfs /\ join_latest o lf = true /\
                In mr (left_join_map m o) /\ accepted o = true /\
                c = cleaned o mr.
Proof.
  unfold select_orders. rewrite in_flat_map. split.
  - intros (lf & I & H). destruct (join_latest o lf) eqn:J; [|contradiction].
    apply in_flat_map in H as (mr & Im & H).
    destruct (accepted o) eqn:A; [|contradiction].
    destruct H as [<-|[]]. exists lf, mr. auto.
  - intros (lf & mr & I & J & Im & A & ->). exists lf. split; [exact I|].
    rewrite J. apply in_flat_map. exists mr. split; [exact Im|].
    rewrite A. left. reflexivity.
Qed.

(** Every appended row is the cleaned image of a staging row that joined
    a row of [latest_files] and passed the WHERE. *)
Lemma loaded_in (today : date) (w : Warehouse) (c : Orders.row) :
  In c (loaded today w) ->
  exists lfs o lf mr,
    latest_files today (STG_ORDERS w) = Success lfs /\
    In o (STG_ORDERS w) /\ In lf lfs /\ join_latest o lf = true /\
    accepted o = true /\ c = cleaned o mr.
Proof.
  unfold loaded, inserted_orders. intros H.
  destruct (latest_files today (STG_ORDERS w)) as [lfs|] eqn:L;
    cbn [bind] in H; [|contradiction].
  apply in_flat_map in H as (o & Io & H).
  apply select_orders_in in H as (lf & mr & I & J & _ & A & E).
  exists lfs, o, lf, mr. repeat split; assumption.
Qed.

Lemma batch_max_unique (today : date) (stg : list Stg.row)
      (g : option string) (T T' : Z) :
  batch_max today stg g T -> batch_max today stg g T' -> T = T'.
Proof.
  intros [(o & I & Q & S & E) U] [(o' & I' & Q' & S' & E') U'].
  pose proof (U o' T' I' Q' S' E'). pose proof (U' o T I Q S E). lia.
Qed.

Lemma stable_month_previous (today : date) :
  1 <= month today <= 12 ->
  stable_month today =
  if month today =? 1 then mkdate (year today - 1) 12 1
  else mkdate (year today) (month today - 1) 1.
Proof.
  intros H. unfold stable_month, DATE_TRUNC_MONTH, ADD_MONTHS.
  cbn [year month day].
  destruct (month today =? 1) eqn:M.
  - apply Z.eqb_eq in M. rewrite M.
    assert (D : (year today * 12 + (1 - 1) + -1) / 12 = year today - 1)
      by (symmetry; apply Z.div_unique_pos with (r := 11); lia).
    assert (R : (year today * 12 + (1 - 1) + -1) mod 12 = 11)
      by (symmetry; apply Z.mod_unique_pos with (q := year today - 1); lia).
    rewrite D, R. reflexivity.
  - apply Z.eqb_neq in M.
    assert (D : (year today * 12 + (month today - 1) + -1) / 12 = year today)
      by (symmetry; apply Z.div_unique_pos with (r := month today - 2); lia).
    assert (R : (year today * 12 + (month today - 1) + -1) mod 12
                = month today - 2)
      by (symmetry; apply Z.mod_unique_pos with (q := year today); lia).
    rewrite D, R. f_equal. lia.
Qed.

(** The statement either fails in the CTE or appends the selected rows;
    nothing else in the warehouse changes. *)
Lemma run_insert_orders_outcome (today : date) (w : Warehouse) :
  RUN_INSERT_ORDERS today w =
  match latest_files today (STG_ORDERS w) with
  | Success lfs =>
    Success (set_ORDERS w
               (ORDERS w ++
                flat_map (select_orders lfs (PRODUCT_SUBCATEGORY_MAP w))
                         (STG_ORDERS w)))
  | SqlFailure => SqlFailure
  end.
Proof.
  unfold RUN_INSERT_ORDERS, inserted_orders.
  destruct (latest_files today (STG_ORDERS w)); reflexivity.
Qed.

Lemma flat_map_nil_iff {A B} (f : A -> list B) (l : list A) :
  (forall b, ~ In b (flat_map f l)) -> flat_map f l = [].
Proof.
  intros H. destruct (flat_map f l) as [|b r]; [reflexivity|].
  exfalso. apply (H b). left. reflexivity.
Qed.

Lemma latest_files_groups_aux (today : date) (stg : list Stg.row)
      (lfs : list latest_file) :
  latest_files today stg = Success lfs ->
  NoDup (map business_month lfs) /\
  forall g, In g (map business_month lfs) <->
            exists o, In o stg /\ in_stable today o /\ order_month o = g.
Proof.
  unfold latest_files. intros H.
  destruct (where_ (in_stable_month today) stg) as [fed|] eqn:W;
    cbn [bind] in H; [|discriminate].
  injection H as <-. pose proof (where_spec _ _ W) as F.
  unfold group_latest. rewrite map_map. cbn [business_month].
  rewrite map_id. split; [apply NoDup_nodup|].
  intros g. rewrite nodup_In, in_map_iff. split.
  - intros (o & E & I). apply F in I as [I Q].
    apply in_stable_month_true in Q. exists o. auto.
  - intros (o & I & Q & E). exists o. split; [exact E|].
    apply F. split; [exact I|]. apply in_stable_month_true. exact Q.
Qed.

Lemma accepted_order_month (o : Stg.row) :
  accepted o = true -> order_month o <> None.
Proof.
  unfold accepted, order_month. intros A. apply andb_true_iff in A as [_ D].
  destruct (TRY_TO_DATE (Stg.OrderDate o) "DD-MM-YYYY"); [|discriminate].
  discriminate.
Qed.

Lemma left_join_map_nonempty (m : list SubMap.row) (o : Stg.row) :
  left_join_map m o <> [].
Proof.
  unfold left_join_map. destruct (filter (join_map o) m); discriminate.
Qed.

Lemma joined_iff (today : date) (stg : list Stg.row) (lfs : list latest_file)
      (o : Stg.row) :
  latest_files today stg = Success lfs ->
  order_month o <> None ->
  ((exists lf, In lf lfs /\ join_latest o lf = true) <->
   exists T, Stg.tbl_dt o = Some T /\ batch_max today stg (order_month o) T).
Proof.
  intros L NN. destruct (latest_files_groups_aux _ _ L) as [_ G]. split.
  - intros (lf & I & J).
    destruct (latest_files_spec _ _ L _ I) as (T & M & B).
    unfold join_latest in J. apply andb_true_iff in J as [Jm Jt].
    apply str_eq_eq in Jm. apply num_eq_true in Jt as (v & Ev & Em).
    exists T. split; [congruence|]. rewrite Jm. exact B.
  - intros (T & E & B). pose proof B as [(o' & I' & Q' & S' & E') _].
    assert (Ig : In (order_month o) (map business_month lfs))
      by (apply G; exists o'; auto).
    apply in_map_iff in Ig as (lf & Eb & I). exists lf. split; [exact I|].
    destruct (latest_files_spec _ _ L _ I) as (T' & M & B').
    rewrite Eb in B'. pose proof (batch_max_unique B B') as ->.
    unfold join_latest. apply andb_true_iff. split.
    + rewrite Eb. apply str_eq_refl. exact NN.
    + apply num_eq_true. exists T'. auto.
Qed.

(** Which staging rows the SELECT keeps, given the rows of the CTE. *)
Lemma selected_iff (today : date) (stg : list Stg.row)
      (lfs : list latest_file) (m : list SubMap.row) (o : Stg.row) :
  latest_files today stg = Success lfs ->
  (select_orders lfs m o <> [] <->
   in_stable today o /\ accepted o = true /\
   exists T, Stg.tbl_dt o = Some T /\ batch_max today stg (order_month o) T).
Proof.
  intros L. split.
  - intros NE.
    destruct (select_orders lfs m o) as [|c r] eqn:E; [contradiction|].
    assert (I : In c (select_orders lfs m o))
      by (rewrite E; left; reflexivity).
    apply select_orders_in in I as (lf & mr & Il & J & _ & A & _).
    assert (B : exists T, Stg.tbl_dt o = Some T /\
                          batch_max today stg (order_month o) T)
      by (apply (@joined_iff today stg lfs o L (@accepted_order_month o A));
          eauto).
    split; [|split; [exact A|exact B]].
    destruct B as (T & ET & [(o' & _ & Q' & _ & E') _]).
    unfold in_stable. rewrite ET, <- E'. exact Q'.
  - intros (_ & A & B).
    apply (@joined_iff today stg lfs o L (@accepted_order_month o A)) in B
      as (lf & Il & J).
    destruct (left_join_map m o) as [|mr r] eqn:E;
      [exfalso; exact (left_join_map_nonempty _ _ E)|].
    intros N.
    assert (I : In (cleaned o mr) (select_orders lfs m o)).
    { apply select_orders_in. exists lf, mr. repeat split; auto.
      rewrite E. left. reflexivity. }
    rewrite N in I. contradiction.
Qed.

(** ** The stable-month order loader *)

(** C1. The loader works on exactly the staging rows whose [tbl_dt], read
    as YYYYMMDD, lies in the month of ADD_MONTHS(CURRENT_DATE, -1), the
    month before the execution month.  The WHERE of the CTE keeps those
    rows and no other; [latest_files] is the grouping of those rows, and
    each of them is counted in the row of its business month; the step
    appends what the SELECT yields against that CTE, and a staging row
    yields cleaned orders exactly when it is one of those rows, passes
    the WHERE of the SELECT and carries the greatest [tbl_dt] of its
    group.  Every appended row carries a [tbl_dt] of that month, so no
    staging row of another [tbl_dt] month is loaded. *)
Theorem stable_month_selection (today : date) (w : Warehouse) :
  (forall fed,
      where_ (in_stable_month today) (STG_ORDERS w) = Success fed ->
      forall o, In o fed <->
                In o (STG_ORDERS w) /\
                tbl_dt_month (Stg.tbl_dt o) = Some (stable_month today)) /\
  (forall lfs,
      latest_files today (STG_ORDERS w) = Success lfs ->
      (exists fed,
          (forall o, In o fed <->
                     In o (STG_ORDERS w) /\
                     tbl_dt_month (Stg.tbl_dt o) = Some (stable_month today)) /\
          lfs = group_latest fed) /\
      (forall o,
          In o (STG_ORDERS w) ->
          tbl_dt_month (Stg.tbl_dt o) = Some (stable_month today) ->
          exists lf T v,
            In lf lfs /\ business_month lf = order_month o /\
            max_tbl_dt lf = Some T /\ Stg.tbl_dt o = Some v /\ v <= T) /\
      RUN_INSERT_ORDERS today w
      = Success (set_ORDERS w (ORDERS w ++ loaded today w)) /\
      loaded today w
      = flat_map (select_orders lfs (PRODUCT_SUBCATEGORY_MAP w))
                 (STG_ORDERS w) /\
      (forall o,
          select_orders lfs (PRODUCT_SUBCATEGORY_MAP w) o <> [] <->
          tbl_dt_month (Stg.tbl_dt o) = Some (stable_month today) /\
          accepted o = true /\
          exists T, Stg.tbl_dt o = Some T /\
                    batch_max today (STG_ORDERS w) (order_month o) T)) /\
  (forall c,
      In c (loaded today w) ->
      tbl_dt_month (Orders.TBL_DT c) = Some (stable_month today) /\
      exists o m, In o (STG_ORDERS w) /\ c = cleaned o m /\
                  tbl_dt_month (Stg.tbl_dt o) = Some (stable_month today)) /\
  (1 <= month today <= 12 ->
   stable_month today =
   if month today =? 1 then mkdate (year today - 1) 12 1
   else mkdate (year today) (month today - 1) 1).
Proof.
  split; [|split; [|split]].
  - intros fed W o. rewrite (where_spec _ _ W o), in_stable_month_true. tauto.
  - intros lfs L. split; [|split; [|split; [|split]]].
    + unfold latest_files in L.
      destruct (where_ (in_stable_month today) (STG_ORDERS w)) as [fed|] eqn:W;
        cbn [bind] in L; [|discriminate].
      injection L as <-. exists fed. split; [|reflexivity].
      intros o. rewrite (where_spec _ _ W o), in_stable_month_true. tauto.
    + intros o I Q.
      destruct (latest_files_groups_aux _ _ L) as [_ G].
      assert (Ig : In (order_month o) (map business_month lfs))
        by (apply G; exists o; auto).
      apply in_map_iff in Ig as (lf & Eb & Il).
      destruct (latest_files_spec _ _ L _ Il) as (T & M & [_ U]).
      destruct (tbl_dt_month_some _ Q) as (v & Ev).
      exists lf, T, v. repeat split; auto.
      apply (U o v I Q); auto.
    + unfold RUN_INSERT_ORDERS, loaded.
      unfold inserted_orders. rewrite L. reflexivity.
    + unfold loaded, inserted_orders. rewrite L. reflexivity.
    + intros o. apply selected_iff. exact L.
  - intros c H.
    destruct (loaded_in _ _ _ H) as (lfs & o & lf & mr & L & Io & Il & J & A & ->).
    destruct (latest_files_spec _ _ L _ Il) as (T & M & [(o' & I' & Q' & S' & E') _]).
    unfold join_latest in J. apply andb_true_iff in J as [_ J].
    apply num_eq_true in J as (v & Ev & Em).
    assert (Q : tbl_dt_month (Stg.tbl_dt o) = Some (stable_month today))
      by (rewrite Ev; replace v with T by congruence; rewrite <- E'; exact Q').
    split; [exact Q|]. exists o, mr. auto.
  - apply stable_month_previous.
Qed.

(** C2. Every appended row carries the greatest [tbl_dt] found, among the
    staging rows of the stable month, for the business month of its order
    date; a staging row of that business month with another (so an
    earlier) [tbl_dt] yields no row. *)
Theorem latest_batch_only (today : date) (w : Warehouse) :
  (forall c,
      In c (loaded today w) ->
      exists T, Orders.TBL_DT c = Some T /\
                batch_max today (STG_ORDERS w)
                          (TO_CHAR (Orders.OrderDate c) "YYYYMM") T) /\
  (forall lfs o T T',
      latest_files today (STG_ORDERS w) = Success lfs ->
      batch_max today (STG_ORDERS w) (order_month o) T ->
      Stg.tbl_dt o = Some T' -> T' < T ->
      select_orders lfs (PRODUCT_SUBCATEGORY_MAP w) o = []).
Proof.
  split.
  - intros c H.
    destruct (loaded_in _ _ _ H) as (lfs & o & lf & mr & L & Io & Il & J & A & ->).
    destruct (latest_files_spec _ _ L _ Il) as (T & M & B).
    unfold join_latest in J. apply andb_true_iff in J as [Jm Jt].
    apply str_eq_eq in Jm. apply num_eq_true in Jt as (v & Ev & Em).
    exists T. cbn [Orders.TBL_DT Orders.OrderDate cleaned].
    split; [congruence|]. fold (order_month o). rewrite Jm. exact B.
  - intros lfs o T T' L B E Lt.
    unfold select_orders. apply flat_map_nil_iff. intros c H.
    change (In c (select_orders lfs (PRODUCT_SUBCATEGORY_MAP w) o)) in H.
    apply select_orders_in in H as (lf & mr & Il & J & _ & _ & _).
    destruct (latest_files_spec _ _ L _ Il) as (T'' & M & B').
    unfold join_latest in J. apply andb_true_iff in J as [Jm Jt].
    apply str_eq_eq in Jm. apply num_eq_true in Jt as (v & Ev & Em).
    rewrite <- Jm in B'. pose proof (batch_max_unique B B'). 
    assert (T'' = T') by congruence. lia.
Qed.

(** C3. A staging row whose order-date month (YYYYMM) differs from the
    business month of every [latest_files] row computed with its
    [tbl_dt] as maximum yields no cleaned order, and the statement
    succeeds all the same: its only effect is the rows it appends. *)
Theorem month_mismatch_dropped (today : date) (w : Warehouse)
        (lfs : list latest_file) (o : Stg.row) :
  latest_files today (STG_ORDERS w) = Success lfs ->
  (forall lf, In lf lfs -> max_tbl_dt lf = Stg.tbl_dt o ->
              business_month lf <> order_month o) ->
  select_orders lfs (PRODUCT_SUBCATEGORY_MAP w) o = [] /\
  RUN_INSERT_ORDERS today w =
  Success (set_ORDERS w
             (ORDERS w ++
              flat_map (select_orders lfs (PRODUCT_SUBCATEGORY_MAP w))
                       (STG_ORDERS w))).
Proof.
  intros L D. split.
  - unfold select_orders. apply flat_map_nil_iff. intros c H.
    change (In c (select_orders lfs (PRODUCT_SUBCATEGORY_MAP w) o)) in H.
    apply select_orders_in in H as (lf & mr & Il & J & _ & _ & _).
    unfold join_latest in J. apply andb_true_iff in J as [Jm Jt].
    apply str_eq_eq in Jm. apply num_eq_true in Jt as (v & Ev & Em).
    apply (D lf Il); congruence.
  - rewrite run_insert_orders_outcome, L. reflexivity.
Qed.

(** C8. A staging row whose Profit is not above zero, or whose OrderDate
    is not a date under DD-MM-YYYY, yields no cleaned order; every
    appended row has a Profit above zero and an order date.  Such a row
    does not fail the statement: when the CTE succeeds the statement
    succeeds, and its only effect is the rows it appends. *)
Theorem filter_excludes (today : date) (w : Warehouse) :
  (forall lfs o,
      (forall p, Stg.Profit o = Some p -> p <= 0) \/
      TRY_TO_DATE (Stg.OrderDate o) "DD-MM-YYYY" = None ->
      select_orders lfs (PRODUCT_SUBCATEGORY_MAP w) o = []) /\
  (forall c,
      In c (loaded today w) ->
      (exists p, Orders.Profit c = Some p /\ 0 < p) /\
      Orders.OrderDate c <> None) /\
  (forall lfs,
      latest_files today (STG_ORDERS w) = Success lfs ->
      RUN_INSERT_ORDERS today w =
      Success (set_ORDERS w
                 (ORDERS w ++
                  flat_map (select_orders lfs (PRODUCT_SUBCATEGORY_MAP w))
                           (STG_ORDERS w)))).
Proof.
  split; [|split].
  - intros lfs o H. unfold select_orders. apply flat_map_nil_iff. intros c I.
    change (In c (select_orders lfs (PRODUCT_SUBCATEGORY_MAP w) o)) in I.
    apply select_orders_in in I as (lf & mr & _ & _ & _ & A & _).
    unfold accepted in A. apply andb_true_iff in A as [P D].
    destruct H as [H|H].
    + unfold num_gt0 in P. destruct (Stg.Profit o) as [p|]; [|discriminate].
      apply Z.ltb_lt in P. specialize (H p eq_refl). lia.
    + rewrite H in D. discriminate.
  - intros c H.
    destruct (loaded_in _ _ _ H) as (lfs & o & lf & mr & _ & _ & _ & _ & A & ->).
    unfold accepted in A. apply andb_true_iff in A as [P D].
    cbn [Orders.Profit Orders.OrderDate cleaned]. split.
    + unfold num_gt0 in P. destruct (Stg.Profit o) as [p|]; [|discriminate].
      apply Z.ltb_lt in P. eauto.
    + destruct (TRY_TO_DATE (Stg.OrderDate o) "DD-MM-YYYY"); [discriminate|].
      discriminate.
  - intros lfs L. rewrite run_insert_orders_outcome, L. reflexivity.
Qed.

(** ** The merge steps *)

Lemma not_matched_in {T S} (on : T -> S -> bool) (target : list T)
      (source : list S) (s : S) :
  In s (not_matched on target source) <->
  In s source /\ forall t, In t target -> on t s = false.
Proof.
  unfold not_matched. rewrite filter_In, negb_true_iff. split.
  - intros [I E]. split; [exact I|]. intros t It.
    destruct (on t s) eqn:O; [|reflexivity].
    assert (X : existsb (fun t => on t s) target = true)
      by (apply existsb_exists; eauto).
    congruence.
  - intros [I H]. split; [exact I|].
    destruct (existsb (fun t => on t s) target) eqn:X; [|reflexivity].
    apply existsb_exists in X as (t & It & O). rewrite (H t It) in O.
    discriminate.
Qed.

(** Once every unmatched source row has a matching row among those added,
    the same source finds nothing unmatched. *)
Lemma not_matched_after {T S} (on : T -> S -> bool) (target new : list T)
      (source : list S) :
  (forall s, In s (not_matched on target source) ->
             exists t, In t new /\ on t s = true) ->
  not_matched on (target ++ new) source = [].
Proof.
  intros H.
  destruct (not_matched on (target ++ new) source) as [|s r] eqn:E;
    [reflexivity|].
  exfalso.
  assert (I : In s (not_matched on (target ++ new) source))
    by (rewrite E; left; reflexivity).
  apply not_matched_in in I as [I N].
  assert (I0 : In s (not_matched on target source)).
  { apply not_matched_in. split; [exact I|]. intros t It.
    apply N. apply in_or_app. auto. }
  destruct (H s I0) as (t & It & O).
  rewrite (N t) in O; [discriminate|]. apply in_or_app. auto.
Qed.

Lemma insert_geography_app (next : list Geography.row -> option Z)
      (new : list Place.row) (g : list Geography.row) :
  exists added, insert_geography next g new = g ++ added /\
                map Geography.place added = new.
Proof.
  revert g. induction new as [|s r IH]; intros g; simpl.
  - exists []. rewrite app_nil_r. auto.
  - destruct (IH (g ++ [{| Geography.geography_id := next g;
                           Geography.place := s |}])) as (a & E & M).
    exists ({| Geography.geography_id := next g; Geography.place := s |} :: a).
    rewrite E, <- app_assoc. simpl. rewrite M. auto.
Qed.

Lemma place_eq_refl (s : Place.row) : place_complete s -> place_eq s s = true.
Proof.
  intros (A & B & C & D & E). unfold place_eq.
  rewrite !str_eq_refl by assumption. reflexivity.
Qed.

Lemma place_eq_eq (a b : Place.row) : place_eq a b = true -> a = b.
Proof.
  unfold place_eq. rewrite !andb_true_iff.
  intros [[[[A B] C] D] E].
  apply str_eq_eq in A, B, C, D, E.
  destruct a, b; simpl in *. congruence.
Qed.

Lemma id_unmatched {T} (id : T -> option string) (target : list T)
      (k : option string) :
  (forall t, In t target -> str_eq (id t) k = false) <->
  k = None \/ ~ In k (map id target).
Proof.
  split.
  - intros H. destruct k as [x|]; [right|left; reflexivity].
    intros I. apply in_map_iff in I as (t & E & It).
    specialize (H t It). rewrite E in H. simpl in H.
    rewrite String.eqb_refl in H. discriminate.
  - intros [->|N] t It.
    + unfold str_eq, sql_eq. destruct (id t); reflexivity.
    + destruct (str_eq (id t) k) eqn:E; [|reflexivity].
      apply str_eq_eq in E. exfalso. apply N. rewrite <- E.
      apply in_map. exact It.
Qed.

Lemma extends_refl {A} (l : list A) : extends l l.
Proof. exists []. symmetry. apply app_nil_r. Qed.

Lemma extends_trans {A} (a b c : list A) :
  extends a b -> extends b c -> extends a c.
Proof.
  intros (x & ->) (y & ->). exists (x ++ y). symmetry. apply app_assoc.
Qed.

Lemma tables_extend_refl (w : Warehouse) : tables_extend w w.
Proof. repeat split; apply extends_refl. Qed.

Lemma tables_extend_trans (a b c : Warehouse) :
  tables_extend a b -> tables_extend b c -> tables_extend a c.
Proof.
  intros (A1 & A2 & A3 & A4) (B1 & B2 & B3 & B4).
  repeat split; eapply extends_trans; eassumption.
Qed.

Lemma customers_step_extends (w : Warehouse) :
  tables_extend w (RUN_INSERT_CUSTOMERS w).
Proof.
  unfold RUN_INSERT_CUSTOMERS, tables_extend, set_customers; simpl.
  repeat split; try apply extends_refl. eexists; reflexivity.
Qed.

Lemma products_step_extends (w : Warehouse) :
  tables_extend w (RUN_INSERT_PRODUCTS w).
Proof.
  unfold RUN_INSERT_PRODUCTS, tables_extend, set_products; simpl.
  repeat split; try apply extends_refl. eexists; reflexivity.
Qed.

Lemma geography_step_extends (w : Warehouse) :
  tables_extend w (RUN_INSERT_GEOGRAPHY w).
Proof.
  unfold RUN_INSERT_GEOGRAPHY, tables_extend, set_geography; simpl.
  repeat split; try apply extends_refl.
  destruct (insert_geography_app (geography_id_default w)
              (not_matched geography_on (geography w)
                           (geography_source (ORDERS w)))
              (geography w)) as (a & E & _).
  exists a. exact E.
Qed.

Lemma fact_step_extends (w : Warehouse) :
  tables_extend w (RUN_INSERT_FACT_ORDER w).
Proof.
  unfold RUN_INSERT_FACT_ORDER, tables_extend, set_fact_orders; simpl.
  repeat split; try apply extends_refl. eexists; reflexivity.
Qed.

Lemma orders_step_extends (today : date) (w w1 : Warehouse) :
  RUN_INSERT_ORDERS today w = Success w1 -> tables_extend w w1.
Proof.
  rewrite run_insert_orders_outcome.
  destruct (latest_files today (STG_ORDERS w)); [|discriminate].
  intros H. injection H as <-. unfold tables_extend, set_ORDERS; simpl.
  repeat split; apply extends_refl.
Qed.

Lemma merge_steps_extend (w : Warehouse) : tables_extend w (merge_steps w).
Proof.
  unfold merge_steps.
  eapply tables_extend_trans; [apply customers_step_extends|].
  eapply tables_extend_trans; [apply products_step_extends|].
  eapply tables_extend_trans; [apply geography_step_extends|].
  apply fact_step_extends.
Qed.

Lemma statement_extends (today : date) (t : task) (w w' : Warehouse) :
  statement today t w = Success w' -> tables_extend w w'.
Proof.
  destruct t; simpl; intros H.
  - eapply orders_step_extends; eassumption.
  - injection H as <-. apply customers_step_extends.
  - injection H as <-. apply products_step_extends.
  - injection H as <-. apply geography_step_extends.
  - injection H as <-. apply fact_step_extends.
Qed.

Lemma run_tasks_extend (engine_error : task -> bool) (today : date)
      (ts : list task) (w : Warehouse) :
  tables_extend w (fst (run_tasks engine_error today ts w)).
Proof.
  revert w. induction ts as [|t r IH]; intros w; simpl.
  - apply tables_extend_refl.
  - unfold run_task. destruct (engine_error t); simpl.
    + apply tables_extend_refl.
    + destruct (statement today t w) as [w'|] eqn:S; simpl.
      * eapply tables_extend_trans; [eapply statement_extends; eassumption|].
        apply IH.
      * apply tables_extend_refl.
Qed.

(** C5. After a run of the DAG, wherever it stops, and after each of its
    five statements, the customers, products, geography and fact_orders
    tables are what they were with rows added behind: no row that was
    there is changed or removed. *)
Theorem existing_rows_kept (engine_error : task -> bool) (today : date)
        (w : Warehouse) :
  tables_extend w (fst (run_dag engine_error today w)) /\
  (forall w1, RUN_INSERT_ORDERS today w = Success w1 -> tables_extend w w1) /\
  tables_extend w (RUN_INSERT_CUSTOMERS w) /\
  tables_extend w (RUN_INSERT_PRODUCTS w) /\
  tables_extend w (RUN_INSERT_GEOGRAPHY w) /\
  tables_extend w (RUN_INSERT_FACT_ORDER w).
Proof.
  split; [|split; [|split; [|split; [|split]]]].
  - unfold run_dag. apply run_tasks_extend.
  - apply orders_step_extends.
  - apply customers_step_extends.
  - apply products_step_extends.
  - apply geography_step_extends.
  - apply fact_step_extends.
Qed.

Lemma customers_source_in (o : list Orders.row) (s : Customers.row) :
  In s (customers_source o) <-> exists r, In r o /\ s = customer_of r.
Proof.
  unfold customers_source. rewrite nodup_In, in_map_iff.
  split; intros (r & A & B); exists r; auto.
Qed.

Lemma products_source_in (o : list Orders.row) (s : Products.row) :
  In s (products_source o) <-> exists r, In r o /\ s = product_of r.
Proof.
  unfold products_source. rewrite nodup_In, in_map_iff.
  split; intros (r & A & B); exists r; auto.
Qed.

Lemma geography_source_in (o : list Orders.row) (s : Place.row) :
  In s (geography_source o) <-> exists r, In r o /\ s = place_of r.
Proof.
  unfold geography_source. rewrite nodup_In, in_map_iff.
  split; intros (r & A & B); exists r; auto.
Qed.

Lemma fact_candidates_in (w : Warehouse) (o : Orders.row) (f : Fact.row) :
  In f (fact_candidates w o) <->
  exists c p g,
    In c (customers w) /\ join_customer o c = true /\
    In p (products w) /\ join_product o p = true /\
    In g (geography w) /\ join_geography o g = true /\
    f = fact_row o c p g.
Proof.
  unfold fact_candidates. rewrite in_flat_map. split.
  - intros (c & Ic & H). apply filter_In in Ic as [Ic Jc].
    apply in_flat_map in H as (p & Ip & H). apply filter_In in Ip as [Ip Jp].
    apply in_map_iff in H as (g & E & Ig). apply filter_In in Ig as [Ig Jg].
    exists c, p, g. repeat split; auto.
  - intros (c & p & g & Ic & Jc & Ip & Jp & Ig & Jg & ->).
    exists c. split; [apply filter_In; auto|].
    apply in_flat_map. exists p. split; [apply filter_In; auto|].
    apply in_map. apply filter_In; auto.
Qed.

Lemma customers_twice (w : Warehouse) :
  (forall o, In o (ORDERS w) -> Orders.CustomerID o <> None) ->
  RUN_INSERT_CUSTOMERS (RUN_INSERT_CUSTOMERS w) = RUN_INSERT_CUSTOMERS w.
Proof.
  intros K. unfold RUN_INSERT_CUSTOMERS at 1 3.
  unfold RUN_INSERT_CUSTOMERS, set_customers; simpl.
  rewrite not_matched_after; [rewrite app_nil_r; reflexivity|].
  intros s I. exists s. split; [exact I|].
  apply not_matched_in in I as [I _].
  apply customers_source_in in I as (r & Ir & ->).
  unfold customers_on. apply str_eq_refl. simpl. auto.
Qed.

Lemma products_twice (w : Warehouse) :
  (forall o, In o (ORDERS w) -> Orders.ProductID o <> None) ->
  RUN_INSERT_PRODUCTS (RUN_INSERT_PRODUCTS w) = RUN_INSERT_PRODUCTS w.
Proof.
  intros K. unfold RUN_INSERT_PRODUCTS at 1 3.
  unfold RUN_INSERT_PRODUCTS, set_products; simpl.
  rewrite not_matched_after; [rewrite app_nil_r; reflexivity|].
  intros s I. exists s. split; [exact I|].
  apply not_matched_in in I as [I _].
  apply products_source_in in I as (r & Ir & ->).
  unfold products_on. apply str_eq_refl. simpl. auto.
Qed.

Lemma geography_twice (w : Warehouse) :
  (forall o, In o (ORDERS w) -> place_complete (place_of o)) ->
  RUN_INSERT_GEOGRAPHY (RUN_INSERT_GEOGRAPHY w) = RUN_INSERT_GEOGRAPHY w.
Proof.
  intros K. unfold RUN_INSERT_GEOGRAPHY at 1 3.
  unfold RUN_INSERT_GEOGRAPHY, set_geography; simpl.
  destruct (insert_geography_app (geography_id_default w)
              (not_matched geography_on (geography w)
                           (geography_source (ORDERS w)))
              (geography w)) as (a & E & M).
  rewrite E. rewrite not_matched_after; [reflexivity|].
  intros s I. rewrite <- M in I. apply in_map_iff in I as (t & <- & It).
  exists t. split; [exact It|].
  assert (I : In (Geography.place t) (map Geography.place a))
    by (apply in_map; exact It).
  rewrite M in I. apply not_matched_in in I as [I _].
  apply geography_source_in in I as (r & Ir & Er).
  unfold geography_on. apply place_eq_refl. rewrite Er. auto.
Qed.

Lemma fact_twice (w : Warehouse) :
  (forall o, In o (ORDERS w) -> Orders.OrderID o <> None) ->
  RUN_INSERT_FACT_ORDER (RUN_INSERT_FACT_ORDER w) = RUN_INSERT_FACT_ORDER w.
Proof.
  intros K. unfold RUN_INSERT_FACT_ORDER at 1 3.
  unfold RUN_INSERT_FACT_ORDER, set_fact_orders; simpl.
  change (fact_source
            (Build_Warehouse (STG_ORDERS w) (PRODUCT_SUBCATEGORY_MAP w)
               (ORDERS w) (customers w) (products w) (geography w)
               (fact_orders w ++ not_matched fact_on (fact_orders w) (fact_source w))
               (geography_id_default w)))
    with (fact_source w).
  rewrite not_matched_after; [rewrite app_nil_r; reflexivity|].
  intros s I. exists s. split; [exact I|].
  apply not_matched_in in I as [I _].
  unfold fact_source in I. apply in_flat_map in I as (o & Io & I).
  apply fact_candidates_in in I as (c & p & g & _ & _ & _ & _ & _ & _ & ->).
  unfold fact_on. apply str_eq_refl. simpl. auto.
Qed.

Lemma geography_places_unique (w : Warehouse) :
  (forall o, In o (ORDERS w) -> place_complete (place_of o)) ->
  NoDup (map Geography.place (geography w)) ->
  NoDup (map Geography.place (geography (RUN_INSERT_GEOGRAPHY w))).
Proof.
  intros K N. unfold RUN_INSERT_GEOGRAPHY, set_geography; simpl.
  destruct (insert_geography_app (geography_id_default w)
              (not_matched geography_on (geography w)
                           (geography_source (ORDERS w)))
              (geography w)) as (a & E & M).
  rewrite E, map_app, M. apply NoDup_app.
  - exact N.
  - unfold not_matched. apply NoDup_filter. apply NoDup_nodup.
  - intros s I1 I2. apply not_matched_in in I2 as [I2 U].
    apply in_map_iff in I1 as (t & Et & It).
    specialize (U t It). unfold geography_on in U. rewrite Et in U.
    apply geography_source_in in I2 as (r & Ir & ->).
    rewrite place_eq_refl in U by auto. discriminate.
Qed.

(** C4 (amended). For each merge step, when no cleaned order has a NULL
    in the columns of that step's natural key, running the step twice on
    unchanged cleaned orders leaves the warehouse as the first run left
    it: the second run inserts no row.  For geography, whose source is
    DISTINCT on the key columns themselves, a table that held no place
    twice holds none twice after the step. *)
Theorem merge_twice_inserts_nothing (w : Warehouse) :
  ((forall o, In o (ORDERS w) -> Orders.CustomerID o <> None) ->
   RUN_INSERT_CUSTOMERS (RUN_INSERT_CUSTOMERS w) = RUN_INSERT_CUSTOMERS w) /\
  ((forall o, In o (ORDERS w) -> Orders.ProductID o <> None) ->
   RUN_INSERT_PRODUCTS (RUN_INSERT_PRODUCTS w) = RUN_INSERT_PRODUCTS w) /\
  ((forall o, In o (ORDERS w) -> place_complete (place_of o)) ->
   RUN_INSERT_GEOGRAPHY (RUN_INSERT_GEOGRAPHY w) = RUN_INSERT_GEOGRAPHY w) /\
  ((forall o, In o (ORDERS w) -> Orders.OrderID o <> None) ->
   RUN_INSERT_FACT_ORDER (RUN_INSERT_FACT_ORDER w) = RUN_INSERT_FACT_ORDER w) /\
  ((forall o, In o (ORDERS w) -> place_complete (place_of o)) ->
   NoDup (map Geography.place (geography w)) ->
   NoDup (map Geography.place (geography (RUN_INSERT_GEOGRAPHY w)))).
Proof.
  split; [|split; [|split; [|split]]].
  - apply customers_twice.
  - apply products_twice.
  - apply geography_twice.
  - apply fact_twice.
  - apply geography_places_unique.
Qed.

(** C7. A cleaned order whose customerid is in no customers row, or whose
    productid is in no products row, or whose place is in no geography
    row, contributes no row to the source of the fact merge; every row
    the merge inserts comes from an order with all three dimension rows
    present; and the step is total: it returns the fact table with the
    inserted rows appended. *)
Theorem missing_dimension_excluded (w : Warehouse) :
  (forall o,
      customer_absent w o \/ product_absent w o \/ place_absent w o ->
      fact_candidates w o = []) /\
  (forall f,
      In f (fact_inserted w) ->
      exists o c p g,
        In o (ORDERS w) /\ In c (customers w) /\ In p (products w) /\
        In g (geography w) /\
        Orders.CustomerID o = Customers.customerid c /\
        Orders.ProductID o = Products.productid p /\
        place_of o = Geography.place g /\
        f = fact_row o c p g) /\
  fact_orders (RUN_INSERT_FACT_ORDER w) = fact_orders w ++ fact_inserted w.
Proof.
  split; [|split].
  - intros o H.
    destruct (fact_candidates w o) as [|f r] eqn:E; [reflexivity|]. exfalso.
    assert (I : In f (fact_candidates w o)) by (rewrite E; left; reflexivity).
    apply fact_candidates_in in I
      as (c & p & g & Ic & Jc & Ip & Jp & Ig & Jg & _).
    apply str_eq_eq in Jc, Jp. apply place_eq_eq in Jg.
    destruct H as [H|[H|H]]; apply H.
    + rewrite Jc. apply in_map. exact Ic.
    + rewrite Jp. apply in_map. exact Ip.
    + rewrite Jg. apply in_map. exact Ig.
  - intros f I. apply not_matched_in in I as [I _].
    unfold fact_source in I. apply in_flat_map in I as (o & Io & I).
    apply fact_candidates_in in I
      as (c & p & g & Ic & Jc & Ip & Jp & Ig & Jg & ->).
    apply str_eq_eq in Jc, Jp. apply place_eq_eq in Jg.
    exists o, c, p, g. repeat split; assumption.
  - reflexivity.
Qed.

(** C10 (amended). The customers merge matches on customerid alone and
    the products merge on productid alone.  A distinct source combination
    is inserted exactly when its id is NULL or is the id of no row the
    dimension held before the statement, each such combination once: all
    the combinations of a new id are inserted, none of an id already
    present. *)
Theorem dimension_merge_by_id (w : Warehouse) :
  (customers (RUN_INSERT_CUSTOMERS w) = customers w ++ customers_inserted w /\
   NoDup (customers_inserted w) /\
   forall s,
     In s (customers_inserted w) <->
     (exists o, In o (ORDERS w) /\ s = customer_of o) /\
     (Customers.customerid s = None \/
      ~ In (Customers.customerid s)
           (map Customers.customerid (customers w)))) /\
  (products (RUN_INSERT_PRODUCTS w) = products w ++ products_inserted w /\
   NoDup (products_inserted w) /\
   forall s,
     In s (products_inserted w) <->
     (exists o, In o (ORDERS w) /\ s = product_of o) /\
     (Products.productid s = None \/
      ~ In (Products.productid s)
           (map Products.productid (products w)))).
Proof.
  split; (split; [reflexivity|split]).
  - apply NoDup_filter, NoDup_nodup.
  - intros s. unfold customers_inserted.
    rewrite not_matched_in, customers_source_in. unfold customers_on.
    rewrite (id_unmatched Customers.customerid). tauto.
  - apply NoDup_filter, NoDup_nodup.
  - intros s. unfold products_inserted.
    rewrite not_matched_in, products_source_in. unfold products_on.
    rewrite (id_unmatched Products.productid). tauto.
Qed.

(** The same execution date on an unchanged staging table appends the
    same rows once more. *)
Lemma run_insert_orders_twice (today : date) (w : Warehouse)
      (rows : list Orders.row) :
  inserted_orders today w = Success rows ->
  exists w1 w2,
    RUN_INSERT_ORDERS today w = Success w1 /\
    RUN_INSERT_ORDERS today w1 = Success w2 /\
    ORDERS w2 = ORDERS w ++ rows ++ rows.
Proof.
  intros H. exists (set_ORDERS w (ORDERS w ++ rows)).
  exists (set_ORDERS w ((ORDERS w ++ rows) ++ rows)).
  unfold RUN_INSERT_ORDERS. rewrite H. cbn [bind].
  split; [reflexivity|].
  change (inserted_orders today (set_ORDERS w (ORDERS w ++ rows)))
    with (inserted_orders today w).
  rewrite H. cbn [bind]. split; [reflexivity|].
  unfold set_ORDERS; simpl. symmetry. apply app_assoc.
Qed.

(** C6. The orders load is not idempotent: there is a staging table with
    an admissible row for which two executions for the same month leave
    the cleaned image of that row twice in the cleaned orders. *)
Theorem orders_load_not_idempotent :
  exists today w w1 w2 o c,
    In o (STG_ORDERS w) /\ accepted o = true /\ ORDERS w = [] /\
    RUN_INSERT_ORDERS today w = Success w1 /\ ORDERS w1 = [c] /\
    RUN_INSERT_ORDERS today w1 = Success w2 /\ ORDERS w2 = [c; c] /\
    exists m, c = cleaned o m.
Proof.
  exists april_1st, (warehouse_of [chair]).
  destruct (@run_insert_orders_twice april_1st (warehouse_of [chair])
              [cleaned chair (Some {| SubMap.PRODUCTNAME := Some "Chair1";
                                      SubMap.SUBCATEGORY := Some "Chairs" |})]
              eq_refl) as (w1 & w2 & R1 & R2 & E).
  exists w1, w2, chair. eexists.
  split; [left; reflexivity|]. split; [reflexivity|]. split; [reflexivity|].
  split; [exact R1|].
  assert (E1 : ORDERS w1 =
               [cleaned chair (Some {| SubMap.PRODUCTNAME := Some "Chair1";
                                       SubMap.SUBCATEGORY := Some "Chairs" |})]).
  { assert (X : Success w1 = Success (orders_loaded [chair]))
      by (rewrite <- R1; reflexivity).
    injection X as ->. reflexivity. }
  split; [exact E1|]. split; [exact R2|]. split; [exact E|].
  eexists. reflexivity.
Qed.

(** ** String cleaning *)

Lemma clean_class_compiled : regex_class clean_pattern = Some clean_class.
Proof. reflexivity. Qed.

Lemma clean_class_matches (c : ascii) :
  negb (class_matches clean_class c) = kept_char c.
Proof. destruct c as [[] [] [] [] [] [] [] []]; reflexivity. Qed.

Lemma regexp_delete_clean (s : string) :
  regexp_delete clean_class s =
  string_of_list_ascii (filter kept_char (list_ascii_of_string s)).
Proof.
  unfold regexp_delete. f_equal. apply filter_ext. apply clean_class_matches.
Qed.

Lemma kept_char_not_space (c : ascii) : kept_char c = true -> is_space c = false.
Proof. destruct c as [[] [] [] [] [] [] [] []]; simpl; auto; discriminate. Qed.

(** With both backslashes in front of the engine the class keeps white
    space. *)
Lemma escaped_class_keeps_space :
  regex_class clean_pattern_sql = Some escaped_class /\
  regexp_delete escaped_class "Chair #1!" = "Chair 1".
Proof. split; reflexivity. Qed.

(** C9. What the cleaning expression does: the pattern that reaches the
    engine is [[^a-zA-Z0-9s.,-]], it keeps exactly the ASCII letters, the
    digits, period, comma and hyphen, and no white space survives: the
    product name "Chair #1!" is written as "Chair1". *)
Theorem cleaning_strips_white_space :
  string_of_list_ascii clean_pattern_sql = "[^a-zA-Z0-9\s\.,-]" /\
  string_of_list_ascii clean_pattern = "[^a-zA-Z0-9s.,-]" /\
  regex_class clean_pattern = Some clean_class /\
  (forall s, regexp_delete clean_class s =
             string_of_list_ascii (filter kept_char (list_ascii_of_string s))) /\
  (forall s, forallb (fun c => negb (is_space c))
                     (list_ascii_of_string (regexp_delete clean_class s))
             = true) /\
  Orders.ProductName (cleaned chair None) = Some "Chair1" /\
  Orders.CustomerName (cleaned chair None) = Some "ClaireGute".
Proof.
  split; [reflexivity|]. split; [reflexivity|]. split; [reflexivity|].
  split; [apply regexp_delete_clean|]. split; [|split; reflexivity].
  intros s. rewrite regexp_delete_clean, list_ascii_of_string_of_list_ascii.
  apply forallb_forall. intros c I. apply filter_In in I as [_ K].
  rewrite (kept_char_not_space _ K). reflexivity.
Qed.

(** ** Instances on the sample data *)

Lemma stable_month_selection_witness :
  (forall o, In o [chair; chair_early; table; loss; year_first; no_zip;
                   february_early; february_late] <->
             In o march_staging /\
             tbl_dt_month (Stg.tbl_dt o) = Some (stable_month april_1st)) /\
  ((exists fed,
       (forall o, In o fed <->
                  In o march_staging /\
                  tbl_dt_month (Stg.tbl_dt o) = Some (stable_month april_1st)) /\
       march_latest = group_latest fed) /\
   (exists lf T v,
       In lf march_latest /\ business_month lf = order_month chair_early /\
       max_tbl_dt lf = Some T /\ Stg.tbl_dt chair_early = Some v /\ v <= T) /\
   RUN_INSERT_ORDERS april_1st (warehouse_of march_staging)
   = Success (set_ORDERS (warehouse_of march_staging)
                ([] ++ loaded april_1st (warehouse_of march_staging))) /\
   select_orders march_latest [chairs_entry] chair <> []) /\
  (tbl_dt_month (Orders.TBL_DT (cleaned chair (Some chairs_entry)))
   = Some (stable_month april_1st) /\
   exists o m, In o march_staging /\
               cleaned chair (Some chairs_entry) = cleaned o m /\
               tbl_dt_month (Stg.tbl_dt o) = Some (stable_month april_1st)) /\
  stable_month april_1st = mkdate 2024 3 1.
Proof.
  destruct (stable_month_selection april_1st (warehouse_of march_staging))
    as (A & B & C & D).
  destruct (B march_latest eq_refl) as (B1 & B2 & B3 & B4 & B5).
  split; [|split; [|split]].
  - apply A. reflexivity.
  - split; [exact B1|]. split; [|split; [exact B3|]].
    + apply B2; [right; left; reflexivity|reflexivity].
    + apply B5. split; [reflexivity|]. split; [reflexivity|].
      exists 20240331. split; [reflexivity|]. split.
      * exists chair. repeat split. left. reflexivity.
      * intros o T' I _ _ E. unfold march_staging in I. simpl in I.
        destruct I as [<-|[<-|[<-|[<-|[<-|[<-|[<-|[<-|[<-|[]]]]]]]]]];
          vm_compute in E; injection E as <-; lia.
  - apply C. vm_compute. left. reflexivity.
  - apply D. simpl. lia.
Defined.

Lemma latest_batch_only_witness :
  (exists T, Orders.TBL_DT (cleaned chair (Some chairs_entry)) = Some T /\
             batch_max april_1st march_staging
               (TO_CHAR (Orders.OrderDate (cleaned chair (Some chairs_entry)))
                        "YYYYMM") T) /\
  select_orders march_latest [chairs_entry] chair_early = [].
Proof.
  destruct (latest_batch_only april_1st (warehouse_of march_staging))
    as (A & B).
  assert (I : In (cleaned chair (Some chairs_entry))
                 (loaded april_1st (warehouse_of march_staging)))
    by (vm_compute; left; reflexivity).
  split; [exact (A _ I)|].
  destruct (A _ I) as (T & E & M).
  assert (ET : T = 20240331) by (vm_compute in E; congruence).
  apply (B march_latest chair_early T 20240310).
  - reflexivity.
  - exact M.
  - reflexivity.
  - lia.
Defined.

Lemma month_mismatch_dropped_witness :
  select_orders mixed_latest [chairs_entry] february_early = [] /\
  RUN_INSERT_ORDERS april_1st (warehouse_of mixed_staging) =
  Success (set_ORDERS (warehouse_of mixed_staging)
             ([] ++ flat_map (select_orders mixed_latest [chairs_entry])
                             mixed_staging)).
Proof.
  apply (@month_mismatch_dropped april_1st (warehouse_of mixed_staging)
           mixed_latest february_early).
  - reflexivity.
  - intros lf [<-|[<-|[]]]; vm_compute; intros M E; discriminate.
Defined.

Lemma filter_excludes_witness :
  select_orders march_latest [chairs_entry] loss = [] /\
  select_orders march_latest [chairs_entry] year_first = [] /\
  ((exists p, Orders.Profit (cleaned table None) = Some p /\ 0 < p) /\
   Orders.OrderDate (cleaned table None) <> None) /\
  RUN_INSERT_ORDERS april_1st (warehouse_of march_staging) =
  Success (set_ORDERS (warehouse_of march_staging)
             ([] ++ flat_map (select_orders march_latest [chairs_entry])
                             march_staging)).
Proof.
  destruct (filter_excludes april_1st (warehouse_of march_staging))
    as (A & B & C).
  split; [|split; [|split]].
  - apply (A march_latest loss). left. intros p E. vm_compute in E.
    injection E as <-. lia.
  - apply (A march_latest year_first). right. reflexivity.
  - apply B. vm_compute. right. left. reflexivity.
  - apply C. reflexivity.
Defined.

Lemma existing_rows_kept_witness :
  tables_extend (dimensions_merged [chair])
                (fst (run_dag (error_at task_geography) april_1st
                              (dimensions_merged [chair]))) /\
  tables_extend (dimensions_merged [chair])
                (set_ORDERS (dimensions_merged [chair])
                   [cleaned chair (Some chairs_entry);
                    cleaned chair (Some chairs_entry)]).
Proof.
  destruct (existing_rows_kept (error_at task_geography) april_1st
                               (dimensions_merged [chair]))
    as (A & B & _).
  split; [exact A|]. apply B. reflexivity.
Defined.

Lemma missing_dimension_excluded_witness :
  fact_candidates (geography_pending [chair])
                  (cleaned chair (Some chairs_entry)) = [] /\
  exists o c p g,
    In o (ORDERS (dimensions_merged [chair])) /\
    In c (customers (dimensions_merged [chair])) /\
    In p (products (dimensions_merged [chair])) /\
    In g (geography (dimensions_merged [chair])) /\
    Orders.CustomerID o = Customers.customerid c /\
    Orders.ProductID o = Products.productid p /\
    place_of o = Geography.place g /\
    fact_row (cleaned chair (Some chairs_entry))
             (customer_of (cleaned chair (Some chairs_entry)))
             (product_of (cleaned chair (Some chairs_entry)))
             {| Geography.geography_id := Some 1;
                Geography.place := place_of (cleaned chair (Some chairs_entry)) |}
    = fact_row o c p g.
Proof.
  split.
  - apply (proj1 (missing_dimension_excluded (geography_pending [chair]))).
    right. right. unfold place_absent. simpl. intros [].
  - apply (proj1 (proj2 (missing_dimension_excluded (dimensions_merged [chair])))).
    vm_compute. left. reflexivity.
Defined.

Lemma merge_twice_inserts_nothing_witness :
  RUN_INSERT_CUSTOMERS (RUN_INSERT_CUSTOMERS (orders_loaded [chair; table]))
  = RUN_INSERT_CUSTOMERS (orders_loaded [chair; table]) /\
  RUN_INSERT_PRODUCTS (RUN_INSERT_PRODUCTS (orders_loaded [chair; table]))
  = RUN_INSERT_PRODUCTS (orders_loaded [chair; table]) /\
  RUN_INSERT_GEOGRAPHY (RUN_INSERT_GEOGRAPHY (orders_loaded [chair; table]))
  = RUN_INSERT_GEOGRAPHY (orders_loaded [chair; table]) /\
  RUN_INSERT_FACT_ORDER (RUN_INSERT_FACT_ORDER (orders_loaded [chair; table]))
  = RUN_INSERT_FACT_ORDER (orders_loaded [chair; table]) /\
  NoDup (map Geography.place
             (geography (RUN_INSERT_GEOGRAPHY (orders_loaded [chair; table])))).
Proof.
  destruct (merge_twice_inserts_nothing (orders_loaded [chair; table]))
    as (A & B & C & D & E).
  assert (K : forall o, In o (ORDERS (orders_loaded [chair; table])) ->
                        o = cleaned chair (Some chairs_entry) \/
                        o = cleaned table None).
  { intros o I. vm_compute in I. destruct I as [<-|[<-|[]]].
    - left. reflexivity.
    - right. reflexivity. }
  split; [|split; [|split; [|split]]].
  - apply A. intros o I. destruct (K o I) as [->| ->]; discriminate.
  - apply B. intros o I. destruct (K o I) as [->| ->]; discriminate.
  - apply C. intros o I.
    destruct (K o I) as [->| ->]; repeat split; discriminate.
  - apply D. intros o I. destruct (K o I) as [->| ->]; discriminate.
  - apply E.
    + intros o I. destruct (K o I) as [->| ->]; repeat split; discriminate.
    + simpl. constructor.
Defined.

Lemma dimension_merge_by_id_witness :
  In (customer_of (renamed (unmapped chair) "Claire Gute"))
     (customers_inserted two_names) /\
  In (customer_of (renamed (unmapped table) "C. Gute"))
     (customers_inserted two_names).
Proof.
  destruct (dimension_merge_by_id two_names) as ((_ & _ & A) & _).
  split; apply A; (split; [|right; simpl; intros []]).
  - exists (renamed (unmapped chair) "Claire Gute"). split; [|reflexivity].
    left. reflexivity.
  - exists (renamed (unmapped table) "C. Gute"). split; [|reflexivity].
    right. left. reflexivity.
Defined.

(** ** Where the merge steps leave a key twice *)

(** Against C10 as first stated: one customerid under two names in the
    cleaned orders enters an empty customers table twice. *)
Lemma one_id_two_customers :
  customers two_names = [] /\
  map Customers.customerid (customers (RUN_INSERT_CUSTOMERS two_names))
  = [Some "CG-12520"; Some "CG-12520"] /\
  map Customers.customername (customers (RUN_INSERT_CUSTOMERS two_names))
  = [Some "Claire Gute"; Some "C. Gute"] /\
  ~ NoDup (map Customers.customerid
               (customers (RUN_INSERT_CUSTOMERS two_names))).
Proof.
  split; [reflexivity|]. split; [reflexivity|]. split; [reflexivity|].
  intros N. vm_compute in N. inversion N as [|x l H _]. apply H.
  left. reflexivity.
Qed.

(** Against C4 as first stated: an order of two lines puts its orderid
    twice into an empty fact table in a single run of the fact merge, and
    a place without postal code is inserted again by a second run of the
    geography merge. *)
Lemma merge_twice_counterexample :
  (fact_orders (dimensions_merged [chair; table]) = [] /\
   map Fact.orderid
       (fact_orders (RUN_INSERT_FACT_ORDER (dimensions_merged [chair; table])))
   = [Some "CA-2024-152156"; Some "CA-2024-152156"]) /\
  (map Geography.place
       (geography (RUN_INSERT_GEOGRAPHY (orders_loaded [no_zip])))
   = [place_of (unmapped no_zip)] /\
   map Geography.place
       (geography (RUN_INSERT_GEOGRAPHY
                     (RUN_INSERT_GEOGRAPHY (orders_loaded [no_zip]))))
   = [place_of (unmapped no_zip); place_of (unmapped no_zip)] /\
   RUN_INSERT_GEOGRAPHY (RUN_INSERT_GEOGRAPHY (orders_loaded [no_zip]))
   <> RUN_INSERT_GEOGRAPHY (orders_loaded [no_zip])).
Proof.
  split; [split; reflexivity|]. split; [reflexivity|]. split; [reflexivity|].
  intros E.
  assert (L : List.length (geography (RUN_INSERT_GEOGRAPHY
                 (RUN_INSERT_GEOGRAPHY (orders_loaded [no_zip]))))
              = List.length (geography (RUN_INSERT_GEOGRAPHY
                                          (orders_loaded [no_zip]))))
    by (rewrite E; reflexivity).
  vm_compute in L. discriminate.
Qed.

(** The business month of a [latest_files] row comes from the order date,
    not from [tbl_dt]: a February order that arrives in a March batch is
    loaded by the run that takes the March batches. *)
Lemma order_month_is_not_batch_month :
  In (cleaned february_late None)
     (loaded april_1st (warehouse_of march_staging)) /\
  order_month february_late = Some "202402" /\
  TO_CHAR (tbl_dt_month (Stg.tbl_dt february_late)) "YYYYMM" = Some "202403".
Proof.
  split; [|split; reflexivity]. vm_compute. do 3 right. left. reflexivity.
Qed.

(** ** Further properties of the order loader *)

(** X2. GROUP BY 1: [latest_files] holds one row for each business month met
    among the staging rows of the stable month (the NULL month of
    unreadable order dates included) and no other row, and the
    [max_tbl_dt] of a row is never NULL: it is the greatest marker of its
    group. *)
Theorem latest_files_groups (today : date) (stg : list Stg.row)
        (lfs : list latest_file) :
  latest_files today stg = Success lfs ->
  NoDup (map business_month lfs) /\
  (forall g, In g (map business_month lfs) <->
             exists o, In o stg /\ in_stable today o /\ order_month o = g) /\
  (forall lf, In lf lfs ->
              exists T, max_tbl_dt lf = Some T /\
                        batch_max today stg (business_month lf) T).
Proof.
  intros H. destruct (latest_files_groups_aux _ _ H) as [N G].
  split; [exact N|]. split; [exact G|]. apply latest_files_spec. exact H.
Qed.

(** X1. Which staging rows are loaded: a row yields cleaned orders exactly
    when it passes the WHERE (Profit above zero, order date readable) and
    its [tbl_dt] is the greatest of the stable month for the business
    month of its order date. *)
Theorem loaded_exactly (today : date) (w : Warehouse)
        (lfs : list latest_file) (o : Stg.row) :
  latest_files today (STG_ORDERS w) = Success lfs ->
  (select_orders lfs (PRODUCT_SUBCATEGORY_MAP w) o <> [] <->
   accepted o = true /\
   exists T, Stg.tbl_dt o = Some T /\
             batch_max today (STG_ORDERS w) (order_month o) T).
Proof.
  intros L. split.
  - intros NE.
    destruct (select_orders lfs (PRODUCT_SUBCATEGORY_MAP w) o) as [|c r] eqn:E;
      [contradiction|].
    assert (I : In c (select_orders lfs (PRODUCT_SUBCATEGORY_MAP w) o))
      by (rewrite E; left; reflexivity).
    apply select_orders_in in I as (lf & mr & Il & J & _ & A & _).
    split; [exact A|].
    apply (@joined_iff today (STG_ORDERS w) lfs o L (@accepted_order_month o A)). eauto.
  - intros (A & B).
    apply (@joined_iff today (STG_ORDERS w) lfs o L (@accepted_order_month o A)) in B
      as (lf & Il & J).
    destruct (left_join_map (PRODUCT_SUBCATEGORY_MAP w) o) as [|mr r] eqn:E;
      [exfalso; exact (left_join_map_nonempty _ _ E)|].
    intros N.
    assert (I : In (cleaned o mr)
                   (select_orders lfs (PRODUCT_SUBCATEGORY_MAP w) o)).
    { apply select_orders_in. exists lf, mr. repeat split; auto.
      rewrite E. left. reflexivity. }
    rewrite N in I. contradiction.
Qed.

Lemma filter_at_most_one {A B} (f : A -> B) (p : A -> bool) (k : B)
      (l : list A) :
  NoDup (map f l) ->
  (forall x, In x l -> p x = true -> f x = k) ->
  (List.length (filter p l) <= 1)%nat.
Proof.
  induction l as [|x r IH]; simpl; intros N H; [lia|].
  inversion N as [|y ys Nx Nr]; subst.
  destruct (p x) eqn:P.
  - assert (E : filter p r = []).
    { destruct (filter p r) as [|y ys] eqn:F; [reflexivity|]. exfalso.
      assert (I : In y (filter p r)) by (rewrite F; left; reflexivity).
      apply filter_In in I as [I Py]. apply Nx.
      rewrite (H x (or_introl eq_refl) P), <- (H y (or_intror I) Py).
      apply in_map. exact I. }
    rewrite E. simpl. lia.
  - apply IH; auto.
Qed.

Lemma length_flat_map_if {A B} (p : A -> bool) (X : list B) (l : list A) :
  List.length (flat_map (fun a => if p a then X else []) l)
  = (List.length (filter p l) * List.length X)%nat.
Proof.
  induction l as [|a r IH]; simpl; [reflexivity|].
  rewrite length_app, IH. destruct (p a); simpl; lia.
Qed.

Lemma existsb_filter {A} (p : A -> bool) (l : list A) :
  existsb p l = negb (Nat.eqb (List.length (filter p l)) 0).
Proof.
  induction l as [|a r IH]; simpl; [reflexivity|].
  destruct (p a); simpl; auto.
Qed.

Lemma length_flat_map_single {A B} (b : bool) (f : A -> B) (l : list A) :
  List.length (flat_map (fun m => if b then [f m] else []) l)
  = if b then List.length l else 0%nat.
Proof.
  induction l as [|a r IH]; destruct b; simpl in *; auto.
Qed.

Lemma length_left_join_map (m : list SubMap.row) (o : Stg.row) :
  List.length (left_join_map m o)
  = Nat.max 1 (List.length (filter (join_map o) m)).
Proof.
  unfold left_join_map. destruct (filter (join_map o) m) as [|a r];
    [reflexivity|].
  rewrite length_map. simpl. destruct (List.length r); reflexivity.
Qed.

(** X3. How many cleaned orders one staging row yields: none unless it joins
    [latest_files] and passes the WHERE; otherwise one per map entry
    carrying its cleaned product name, and one when there is no such
    entry.  The join with [latest_files] never multiplies a row. *)
Theorem rows_per_staging_row (today : date) (w : Warehouse)
        (lfs : list latest_file) (o : Stg.row) :
  latest_files today (STG_ORDERS w) = Success lfs ->
  List.length (select_orders lfs (PRODUCT_SUBCATEGORY_MAP w) o) =
  if existsb (join_latest o) lfs && accepted o
  then Nat.max 1 (List.length (filter (join_map o) (PRODUCT_SUBCATEGORY_MAP w)))
  else 0%nat.
Proof.
  intros L. destruct (latest_files_groups_aux _ _ L) as [N _].
  unfold select_orders. rewrite length_flat_map_if, existsb_filter.
  assert (U : (List.length (filter (join_latest o) lfs) <= 1)%nat).
  { apply (@filter_at_most_one _ _ business_month (join_latest o)
             (order_month o) lfs N).
    intros lf _ J. unfold join_latest in J.
    apply andb_true_iff in J as [J _]. apply str_eq_eq in J. auto. }
  assert (X : List.length
                (flat_map (fun m => if accepted o then [cleaned o m] else [])
                          (left_join_map (PRODUCT_SUBCATEGORY_MAP w) o))
              = if accepted o
                then Nat.max 1 (List.length
                                  (filter (join_map o)
                                          (PRODUCT_SUBCATEGORY_MAP w)))
                else 0%nat).
  { rewrite length_flat_map_single, length_left_join_map. reflexivity. }
  rewrite X.
  destruct (List.length (filter (join_latest o) lfs)) as [|[|n]]; simpl.
  - reflexivity.
  - destruct (accepted o); lia.
  - lia.
Qed.

Lemma left_join_map_in (m : list SubMap.row) (o : Stg.row)
      (mr : option SubMap.row) :
  In mr (left_join_map m o) ->
  (mr = None /\ forall r, In r m -> join_map o r = false) \/
  (exists r, mr = Some r /\ In r m /\ join_map o r = true).
Proof.
  unfold left_join_map.
  destruct (filter (join_map o) m) as [|a l] eqn:F.
  - intros [<-|[]]. left. split; [reflexivity|]. intros r I.
    destruct (join_map o r) eqn:J; [|reflexivity].
    assert (X : In r (filter (join_map o) m)) by (apply filter_In; auto).
    rewrite F in X. contradiction.
  - intros I. apply in_map_iff in I as (r & <- & I). rewrite <- F in I.
    apply filter_In in I as [I J]. right. eauto.
Qed.

Lemma loaded_in_map (today : date) (w : Warehouse) (c : Orders.row) :
  In c (loaded today w) ->
  exists o mr, In o (STG_ORDERS w) /\
               In mr (left_join_map (PRODUCT_SUBCATEGORY_MAP w) o) /\
               c = cleaned o mr.
Proof.
  unfold loaded, inserted_orders. intros H.
  destruct (latest_files today (STG_ORDERS w)) as [lfs|] eqn:L;
    cbn [bind] in H; [|contradiction].
  apply in_flat_map in H as (o & Io & H).
  apply select_orders_in in H as (lf & mr & _ & _ & Im & _ & E).
  exists o, mr. auto.
Qed.

(** X4. The subcategory of a loaded row is never NULL.  It is 'Unmapped' when
    no map entry carries the cleaned product name; otherwise it is the
    SUBCATEGORY of such an entry, or 'Unmapped' when that is NULL. *)
Theorem subcategory_from_map (today : date) (w : Warehouse) (c : Orders.row) :
  In c (loaded today w) ->
  Orders.SubCategory c <> None /\
  (~ In (Orders.ProductName c)
        (map SubMap.PRODUCTNAME (PRODUCT_SUBCATEGORY_MAP w)) ->
   Orders.SubCategory c = Some "Unmapped") /\
  (Orders.SubCategory c = Some "Unmapped" \/
   exists m, In m (PRODUCT_SUBCATEGORY_MAP w) /\
             SubMap.PRODUCTNAME m = Orders.ProductName c /\
             SubMap.SUBCATEGORY m = Orders.SubCategory c).
Proof.
  intros H. destruct (loaded_in_map _ _ _ H) as (o & mr & _ & Im & ->).
  cbn [Orders.SubCategory Orders.ProductName cleaned].
  apply left_join_map_in in Im as [[-> _]|(r & -> & Ir & J)].
  - split; [discriminate|]. split; [reflexivity|]. left. reflexivity.
  - unfold join_map in J. apply str_eq_eq in J. split; [|split].
    + unfold COALESCE. destruct (SubMap.SUBCATEGORY r); discriminate.
    + intros N. exfalso. apply N. rewrite J. apply in_map. exact Ir.
    + destruct (SubMap.SUBCATEGORY r) as [v|] eqn:E.
      * right. exists r. repeat split; auto.
      * left. reflexivity.
Qed.

Lemma in_stable_month_failure (today : date) (o : Stg.row) :
  in_stable_month today o = SqlFailure <->
  Stg.tbl_dt o <> None /\ tbl_dt_month (Stg.tbl_dt o) = None.
Proof.
  unfold in_stable_month, tbl_dt_month, TO_DATE, TRY_TO_DATE, cast_string.
  destruct (Stg.tbl_dt o) as [v|]; cbn [bind option_map].
  - destruct (parse_date "YYYYMMDD" (NilZero.string_of_int (Z.to_int v)));
      cbn [bind option_map]; split.
    + discriminate.
    + intros [_ H]. discriminate.
    + intros _. split; [discriminate|reflexivity].
    + reflexivity.
  - split; [discriminate|]. intros [H _]. contradiction.
Qed.

(** X5. When some staging row, of whatever batch, has a [tbl_dt] that is
    not NULL and does not read as a YYYYMMDD date, the statement fails
    whatever the execution date (TO_DATE, unlike TRY_TO_DATE, raises):
    nothing is loaded and the run stops in its first task with the
    warehouse as it was.  A row with a NULL [tbl_dt] makes the condition of
    the CTE NULL without raising, and is never loaded. *)
Theorem unreadable_marker_fails (engine_error : task -> bool) (today : date)
        (w : Warehouse) :
  ((exists o, In o (STG_ORDERS w) /\ Stg.tbl_dt o <> None /\
              tbl_dt_month (Stg.tbl_dt o) = None) ->
   RUN_INSERT_ORDERS today w = SqlFailure /\
   loaded today w = [] /\
   run_dag engine_error today w = (w, false)) /\
  (forall o, Stg.tbl_dt o = None -> in_stable_month today o = Success false) /\
  (forall lfs o, Stg.tbl_dt o = None ->
                 select_orders lfs (PRODUCT_SUBCATEGORY_MAP w) o = []).
Proof.
  split; [|split].
  - intros (o & I & Q).
    apply in_stable_month_failure with (today := today) in Q.
    assert (W : where_ (in_stable_month today) (STG_ORDERS w) = SqlFailure)
      by (apply where_failure; eauto).
    assert (L : inserted_orders today w = SqlFailure)
      by (unfold inserted_orders, latest_files; rewrite W; reflexivity).
    assert (F : RUN_INSERT_ORDERS today w = SqlFailure)
      by (unfold RUN_INSERT_ORDERS; rewrite L; reflexivity).
    split; [exact F|]. split.
    + unfold loaded. rewrite L. reflexivity.
    + unfold run_dag, dag_tasks. cbn [run_tasks]. unfold run_task.
      destruct (engine_error task_orders); [reflexivity|].
      cbn [statement]. rewrite F. reflexivity.
  - intros o E. unfold in_stable_month. rewrite E. reflexivity.
  - intros lfs o E. unfold select_orders. apply flat_map_nil_iff. intros c H.
    change (In c (select_orders lfs (PRODUCT_SUBCATEGORY_MAP w) o)) in H.
    apply select_orders_in in H as (lf & mr & _ & J & _).
    unfold join_latest in J. apply andb_true_iff in J as [_ J].
    rewrite E in J. discriminate.
Qed.

(** X6. All rows one execution loads for a business month come from a single
    batch: two loaded rows whose order dates share the YYYYMM month carry
    the same TBL_DT. *)
Theorem one_batch_per_month (today : date) (w : Warehouse)
        (c c' : Orders.row) :
  In c (loaded today w) -> In c' (loaded today w) ->
  TO_CHAR (Orders.OrderDate c) "YYYYMM" = TO_CHAR (Orders.OrderDate c') "YYYYMM" ->
  Orders.TBL_DT c = Orders.TBL_DT c'.
Proof.
  intros H H' E.
  destruct (loaded_in _ _ _ H) as (lfs & o & lf & mr & L & _ & Il & J & _ & ->).
  destruct (loaded_in _ _ _ H')
    as (lfs' & o' & lf' & mr' & L' & _ & Il' & J' & _ & ->).
  assert (lfs' = lfs) by congruence. subst lfs'.
  cbn [Orders.TBL_DT Orders.OrderDate cleaned] in *.
  fold (order_month o) in E. fold (order_month o') in E.
  destruct (latest_files_spec _ _ L _ Il) as (T & M & B).
  destruct (latest_files_spec _ _ L _ Il') as (T' & M' & B').
  unfold join_latest in J, J'.
  apply andb_true_iff in J as [Jm Jt]. apply andb_true_iff in J' as [Jm' Jt'].
  apply str_eq_eq in Jm, Jm'.
  apply num_eq_true in Jt as (v & Ev & Em).
  apply num_eq_true in Jt' as (v' & Ev' & Em').
  rewrite <- Jm in B. rewrite <- Jm', <- E in B'.
  pose proof (batch_max_unique B B'). congruence.
Qed.

Lemma run_tasks_cons (engine_error : task -> bool) (today : date) (t : task)
      (r : list task) (w : Warehouse) :
  run_tasks engine_error today (t :: r) w =
  match run_task engine_error today t w with
  | Success w' => run_tasks engine_error today r w'
  | SqlFailure => (w, false)
  end.
Proof. reflexivity. Qed.

Lemma merge_statement_frame (today : date) (t : task) (w w' : Warehouse) :
  t <> task_orders -> statement today t w = Success w' ->
  STG_ORDERS w' = STG_ORDERS w /\
  PRODUCT_SUBCATEGORY_MAP w' = PRODUCT_SUBCATEGORY_MAP w /\
  ORDERS w' = ORDERS w.
Proof.
  destruct t; cbn [statement]; intros N H; try contradiction;
    injection H as <-; repeat split; reflexivity.
Qed.

Lemma merge_tasks_frame (engine_error : task -> bool) (today : date)
      (ts : list task) (w : Warehouse) :
  ~ In task_orders ts ->
  STG_ORDERS (fst (run_tasks engine_error today ts w)) = STG_ORDERS w /\
  PRODUCT_SUBCATEGORY_MAP (fst (run_tasks engine_error today ts w))
  = PRODUCT_SUBCATEGORY_MAP w /\
  ORDERS (fst (run_tasks engine_error today ts w)) = ORDERS w.
Proof.
  revert w. induction ts as [|t r IH]; intros w N; cbn [run_tasks].
  - repeat split; reflexivity.
  - unfold run_task. destruct (engine_error t); [repeat split; reflexivity|].
    destruct (statement today t w) as [w'|] eqn:S;
      [|repeat split; reflexivity].
    assert (Nt : t <> task_orders) by (intros ->; apply N; left; reflexivity).
    destruct (@merge_statement_frame today t w w' Nt S) as (A & B & C).
    destruct (IH w' (fun I => N (or_intror I))) as (A' & B' & C').
    rewrite A', B', C'. auto.
Qed.

(** X8. A run, wherever it stops, never touches the staging table or the
    subcategory map.  When the engine rejects the first statement the
    cleaned orders stay as they were; otherwise they are the cleaned
    orders before the run followed by the loaded rows, also when a later
    task fails: the merge steps leave them alone and what the first
    statement committed stays. *)
Theorem run_leaves_inputs (engine_error : task -> bool) (today : date)
        (w : Warehouse) :
  STG_ORDERS (fst (run_dag engine_error today w)) = STG_ORDERS w /\
  PRODUCT_SUBCATEGORY_MAP (fst (run_dag engine_error today w))
  = PRODUCT_SUBCATEGORY_MAP w /\
  (engine_error task_orders = true ->
   ORDERS (fst (run_dag engine_error today w)) = ORDERS w) /\
  (engine_error task_orders = false ->
   ORDERS (fst (run_dag engine_error today w)) = ORDERS w ++ loaded today w) /\
  (snd (run_dag engine_error today w) = true ->
   ORDERS (fst (run_dag engine_error today w)) = ORDERS w ++ loaded today w).
Proof.
  assert (M : ~ In task_orders
                   [task_customers; task_products; task_geography;
                    task_fact_order])
    by (simpl; intros [H|[H|[H|[H|[]]]]]; discriminate).
  unfold run_dag, dag_tasks. rewrite run_tasks_cons. unfold run_task.
  destruct (engine_error task_orders) eqn:E.
  - cbn [fst snd]. repeat split; auto; discriminate.
  - cbn [statement]. unfold loaded, RUN_INSERT_ORDERS.
    destruct (inserted_orders today w) as [rows|]; cbn [bind fst snd].
    + destruct (@merge_tasks_frame engine_error today _
                  (set_ORDERS w (ORDERS w ++ rows)) M) as (A & B & C).
      rewrite A, B, C. repeat split; auto. discriminate.
    + repeat split; auto; try discriminate. symmetry. apply app_nil_r.
Qed.

(** ** Further properties of the merge steps *)

Lemma merge_covers {T S} (on : T -> S -> bool) (target : list T)
      (source : list S) (s : S) :
  In s source ->
  (exists t, In t target /\ on t s = true) \/
  In s (not_matched on target source).
Proof.
  intros I. destruct (existsb (fun t => on t s) target) eqn:X.
  - left. apply existsb_exists in X. exact X.
  - right. unfold not_matched. apply filter_In. rewrite X. auto.
Qed.

Lemma not_matched_nil {T S} (on : T -> S -> bool) (target : list T)
      (source : list S) :
  (forall s, In s source -> exists t, In t target /\ on t s = true) ->
  not_matched on target source = [].
Proof.
  intros H. destruct (not_matched on target source) as [|s r] eqn:E;
    [reflexivity|]. exfalso.
  assert (I : In s (not_matched on target source))
    by (rewrite E; left; reflexivity).
  apply not_matched_in in I as [I N]. destruct (H s I) as (t & It & O).
  rewrite (N t It) in O. discriminate.
Qed.

Lemma str_eq_sym (a b : option string) : str_eq a b = str_eq b a.
Proof.
  destruct a, b; simpl; auto. apply String.eqb_sym.
Qed.

Lemma place_eq_sym (a b : Place.row) : place_eq a b = place_eq b a.
Proof.
  unfold place_eq.
  rewrite (str_eq_sym (Place.country a)), (str_eq_sym (Place.city a)),
    (str_eq_sym (Place.state a)), (str_eq_sym (Place.postalcode a)),
    (str_eq_sym (Place.region a)).
  reflexivity.
Qed.

Lemma customers_cover (w : Warehouse) (o : Orders.row) :
  In o (ORDERS w) -> Orders.CustomerID o <> None ->
  exists c, In c (customers (RUN_INSERT_CUSTOMERS w)) /\
            join_customer o c = true.
Proof.
  intros I K. unfold RUN_INSERT_CUSTOMERS, set_customers; simpl.
  assert (Is : In (customer_of o) (customers_source (ORDERS w)))
    by (apply customers_source_in; eauto).
  destruct (merge_covers customers_on (customers w) _ _ Is)
    as [(t & It & O)|N].
  - exists t. split; [apply in_or_app; auto|].
    unfold join_customer. rewrite str_eq_sym. exact O.
  - exists (customer_of o). split; [apply in_or_app; auto|].
    unfold join_customer. simpl. apply str_eq_refl. exact K.
Qed.

Lemma products_cover (w : Warehouse) (o : Orders.row) :
  In o (ORDERS w) -> Orders.ProductID o <> None ->
  exists p, In p (products (RUN_INSERT_PRODUCTS w)) /\
            join_product o p = true.
Proof.
  intros I K. unfold RUN_INSERT_PRODUCTS, set_products; simpl.
  assert (Is : In (product_of o) (products_source (ORDERS w)))
    by (apply products_source_in; eauto).
  destruct (merge_covers products_on (products w) _ _ Is)
    as [(t & It & O)|N].
  - exists t. split; [apply in_or_app; auto|].
    unfold join_product. rewrite str_eq_sym. exact O.
  - exists (product_of o). split; [apply in_or_app; auto|].
    unfold join_product. simpl. apply str_eq_refl. exact K.
Qed.

Lemma geography_cover (w : Warehouse) (o : Orders.row) :
  In o (ORDERS w) -> place_complete (place_of o) ->
  exists g, In g (geography (RUN_INSERT_GEOGRAPHY w)) /\
            join_geography o g = true.
Proof.
  intros I K. unfold RUN_INSERT_GEOGRAPHY, set_geography; simpl.
  destruct (insert_geography_app (geography_id_default w)
              (not_matched geography_on (geography w)
                           (geography_source (ORDERS w)))
              (geography w)) as (a & E & M).
  rewrite E.
  assert (Is : In (place_of o) (geography_source (ORDERS w)))
    by (apply geography_source_in; eauto).
  destruct (merge_covers geography_on (geography w) _ _ Is)
    as [(t & It & O)|N].
  - exists t. split; [apply in_or_app; auto|].
    unfold join_geography. rewrite place_eq_sym. exact O.
  - rewrite <- M in N. apply in_map_iff in N as (t & Et & It).
    exists t. split; [apply in_or_app; auto|].
    unfold join_geography. rewrite Et. apply place_eq_refl. exact K.
Qed.

(** X9. After a dimension merge the dimension covers the cleaned orders: every
    customerid that is not NULL is the id of a customers row, every such
    productid the id of a products row, and every place without NULL the
    place of a geography row. *)
Theorem dimensions_cover_orders (w : Warehouse) (o : Orders.row) :
  In o (ORDERS w) ->
  (Orders.CustomerID o <> None ->
   In (Orders.CustomerID o)
      (map Customers.customerid (customers (RUN_INSERT_CUSTOMERS w)))) /\
  (Orders.ProductID o <> None ->
   In (Orders.ProductID o)
      (map Products.productid (products (RUN_INSERT_PRODUCTS w)))) /\
  (place_complete (place_of o) ->
   In (place_of o)
      (map Geography.place (geography (RUN_INSERT_GEOGRAPHY w)))).
Proof.
  intros I. split; [|split]; intros K.
  - destruct (@customers_cover w o I K) as (c & Ic & J).
    apply str_eq_eq in J. rewrite J. apply in_map. exact Ic.
  - destruct (@products_cover w o I K) as (p & Ip & J).
    apply str_eq_eq in J. rewrite J. apply in_map. exact Ip.
  - destruct (@geography_cover w o I K) as (g & Ig & J).
    apply place_eq_eq in J. rewrite J. apply in_map. exact Ig.
Qed.

(** The state in which the fact merge runs. *)
Lemma candidates_after_dimensions (w : Warehouse) (o : Orders.row) :
  In o (ORDERS w) -> keys_complete o ->
  exists s,
    In s (fact_source
            (RUN_INSERT_GEOGRAPHY
               (RUN_INSERT_PRODUCTS (RUN_INSERT_CUSTOMERS w)))) /\
    Fact.orderid s = Orders.OrderID o.
Proof.
  intros I (Kc & Kp & Ko & Kg).
  destruct (@customers_cover w o I Kc) as (c & Ic & Jc).
  destruct (@products_cover (RUN_INSERT_CUSTOMERS w) o I Kp) as (p & Ip & Jp).
  destruct (@geography_cover (RUN_INSERT_PRODUCTS (RUN_INSERT_CUSTOMERS w)) o
              I Kg) as (g & Ig & Jg).
  exists (fact_row o c p g). split; [|reflexivity].
  unfold fact_source. apply in_flat_map. exists o. split; [exact I|].
  apply fact_candidates_in. exists c, p, g. repeat split; auto.
Qed.

Lemma fact_cover (w : Warehouse) (s : Fact.row) :
  In s (fact_source w) -> Fact.orderid s <> None ->
  exists t, In t (fact_orders (RUN_INSERT_FACT_ORDER w)) /\ fact_on t s = true.
Proof.
  intros I K. unfold RUN_INSERT_FACT_ORDER, set_fact_orders; simpl.
  destruct (merge_covers fact_on (fact_orders w) _ _ I) as [(t & It & O)|N].
  - exists t. split; [apply in_or_app; auto|exact O].
  - exists s. split; [apply in_or_app; auto|].
    unfold fact_on. apply str_eq_refl. exact K.
Qed.

Lemma dimension_rows_after_merges (w : Warehouse) (o : Orders.row) :
  In o (ORDERS w) -> keys_complete o ->
  exists c p g,
    In c (customers (merge_steps w)) /\ join_customer o c = true /\
    In p (products (merge_steps w)) /\ join_product o p = true /\
    In g (geography (merge_steps w)) /\ join_geography o g = true /\
    In (fact_row o c p g)
       (fact_source
          (RUN_INSERT_GEOGRAPHY
             (RUN_INSERT_PRODUCTS (RUN_INSERT_CUSTOMERS w)))).
Proof.
  intros I (Kc & Kp & Ko & Kg).
  destruct (@customers_cover w o I Kc) as (c & Ic & Jc).
  destruct (@products_cover (RUN_INSERT_CUSTOMERS w) o I Kp) as (p & Ip & Jp).
  destruct (@geography_cover (RUN_INSERT_PRODUCTS (RUN_INSERT_CUSTOMERS w)) o
              I Kg) as (g & Ig & Jg).
  exists c, p, g. repeat split; auto.
  unfold fact_source. apply in_flat_map. exists o. split; [exact I|].
  apply fact_candidates_in. exists c, p, g. repeat split; auto.
Qed.

(** X10. After the four merge steps in their order, every cleaned order
    without NULL in its key columns has its orderid in fact_orders,
    whatever the tables held before.  When that orderid was in no fact
    row before the steps, the fact merge inserts a row built from that
    very order line and dimension rows matching it. *)
Theorem complete_orders_reach_fact (w : Warehouse) (o : Orders.row) :
  In o (ORDERS w) -> keys_complete o ->
  In (Orders.OrderID o) (map Fact.orderid (fact_orders (merge_steps w))) /\
  (~ In (Orders.OrderID o) (map Fact.orderid (fact_orders w)) ->
   exists c p g,
     In c (customers (merge_steps w)) /\ join_customer o c = true /\
     In p (products (merge_steps w)) /\ join_product o p = true /\
     In g (geography (merge_steps w)) /\ join_geography o g = true /\
     In (fact_row o c p g) (fact_orders (merge_steps w))).
Proof.
  intros I K. split.
  - destruct (@candidates_after_dimensions w o I K) as (s & Is & E).
    assert (Ko : Fact.orderid s <> None)
      by (rewrite E; destruct K as (_ & _ & Ko & _); exact Ko).
    destruct (@fact_cover _ _ Is Ko) as (t & It & O).
    unfold fact_on in O. apply str_eq_eq in O.
    unfold merge_steps. rewrite <- E, <- O. apply in_map. exact It.
  - intros N.
    destruct (@dimension_rows_after_merges w o I K)
      as (c & p & g & Ic & Jc & Ip & Jp & Ig & Jg & Is).
    exists c, p, g. repeat split; auto.
    unfold merge_steps, RUN_INSERT_FACT_ORDER at 1, set_fact_orders.
    cbn [fact_orders]. apply in_or_app. right.
    apply not_matched_in. split; [exact Is|].
    unfold fact_on.
    apply (proj2 (id_unmatched Fact.orderid _ (Fact.orderid (fact_row o c p g)))).
    right. exact N.
Qed.

Lemma customers_settled (w : Warehouse) :
  (forall o, In o (ORDERS w) ->
             exists c, In c (customers w) /\ join_customer o c = true) ->
  RUN_INSERT_CUSTOMERS w = w.
Proof.
  intros H. unfold RUN_INSERT_CUSTOMERS.
  rewrite not_matched_nil.
  - rewrite app_nil_r. destruct w; reflexivity.
  - intros s I. apply customers_source_in in I as (o & Io & ->).
    destruct (H o Io) as (c & Ic & J). exists c. split; [exact Ic|].
    unfold customers_on. rewrite str_eq_sym. exact J.
Qed.

Lemma products_settled (w : Warehouse) :
  (forall o, In o (ORDERS w) ->
             exists p, In p (products w) /\ join_product o p = true) ->
  RUN_INSERT_PRODUCTS w = w.
Proof.
  intros H. unfold RUN_INSERT_PRODUCTS.
  rewrite not_matched_nil.
  - rewrite app_nil_r. destruct w; reflexivity.
  - intros s I. apply products_source_in in I as (o & Io & ->).
    destruct (H o Io) as (c & Ic & J). exists c. split; [exact Ic|].
    unfold products_on. rewrite str_eq_sym. exact J.
Qed.

Lemma geography_settled (w : Warehouse) :
  (forall o, In o (ORDERS w) ->
             exists g, In g (geography w) /\ join_geography o g = true) ->
  RUN_INSERT_GEOGRAPHY w = w.
Proof.
  intros H. unfold RUN_INSERT_GEOGRAPHY.
  rewrite not_matched_nil.
  - simpl. destruct w; reflexivity.
  - intros s I. apply geography_source_in in I as (o & Io & ->).
    destruct (H o Io) as (c & Ic & J). exists c. split; [exact Ic|].
    unfold geography_on. rewrite place_eq_sym. exact J.
Qed.

Lemma fact_settled (w : Warehouse) :
  (forall s, In s (fact_source w) ->
             exists t, In t (fact_orders w) /\ fact_on t s = true) ->
  RUN_INSERT_FACT_ORDER w = w.
Proof.
  intros H. unfold RUN_INSERT_FACT_ORDER.
  rewrite (not_matched_nil _ _ _ H), app_nil_r. destruct w; reflexivity.
Qed.

(** A warehouse that already went through the merge steps, with some of
    its cleaned orders appended once more, is left as it is by the merge
    steps. *)
Lemma merge_steps_after_reload (w : Warehouse) (rows : list Orders.row) :
  (forall o, In o (ORDERS w) -> keys_complete o) ->
  (forall o, In o rows -> In o (ORDERS w)) ->
  merge_steps (set_ORDERS (merge_steps w) (ORDERS (merge_steps w) ++ rows))
  = set_ORDERS (merge_steps w) (ORDERS (merge_steps w) ++ rows).
Proof.
  intros K R.
  set (w1 := RUN_INSERT_CUSTOMERS w).
  set (w2 := RUN_INSERT_PRODUCTS w1).
  set (w3 := RUN_INSERT_GEOGRAPHY w2).
  set (wB := set_ORDERS (merge_steps w) (ORDERS (merge_steps w) ++ rows)).
  assert (IB : forall o, In o (ORDERS wB) -> In o (ORDERS w)).
  { intros o I. change (In o (ORDERS w ++ rows)) in I.
    apply in_app_or in I as [I|I]; auto. }
  assert (C : RUN_INSERT_CUSTOMERS wB = wB).
  { apply customers_settled. intros o I. apply IB in I.
    destruct (K o I) as (Kc & _).
    exact (@customers_cover w o I Kc). }
  assert (P : RUN_INSERT_PRODUCTS wB = wB).
  { apply products_settled. intros o I. apply IB in I.
    destruct (K o I) as (_ & Kp & _).
    exact (@products_cover w1 o I Kp). }
  assert (G : RUN_INSERT_GEOGRAPHY wB = wB).
  { apply geography_settled. intros o I. apply IB in I.
    destruct (K o I) as (_ & _ & _ & Kg).
    exact (@geography_cover w2 o I Kg). }
  assert (F : RUN_INSERT_FACT_ORDER wB = wB).
  { apply fact_settled. intros s I.
    unfold fact_source in I. apply in_flat_map in I as (o & Io & I).
    apply IB in Io.
    change (fact_candidates wB o) with (fact_candidates w3 o) in I.
    assert (Is : In s (fact_source w3))
      by (unfold fact_source; apply in_flat_map; exists o; auto).
    assert (Ko : Fact.orderid s <> None).
    { apply fact_candidates_in in I as (c & p & g & _ & _ & _ & _ & _ & _ & ->).
      simpl. destruct (K o Io) as (_ & _ & Ko & _). exact Ko. }
    exact (@fact_cover w3 s Is Ko). }
  unfold merge_steps at 1. rewrite C, P, G, F. reflexivity.
Qed.

(** A successful run is the orders load followed by the four merges. *)
Lemma run_dag_success (engine_error : task -> bool) (today : date)
      (w w1 : Warehouse) :
  run_dag engine_error today w = (w1, true) ->
  exists rows,
    inserted_orders today w = Success rows /\
    w1 = merge_steps (set_ORDERS w (ORDERS w ++ rows)).
Proof.
  unfold run_dag, dag_tasks. rewrite run_tasks_cons. unfold run_task.
  destruct (engine_error task_orders); [discriminate|].
  cbn [statement]. unfold RUN_INSERT_ORDERS.
  destruct (inserted_orders today w) as [rows|]; cbn [bind]; [|discriminate].
  rewrite run_tasks_cons. unfold run_task.
  destruct (engine_error task_customers); [discriminate|].
  cbn [statement]. rewrite run_tasks_cons. unfold run_task.
  destruct (engine_error task_products); [discriminate|].
  cbn [statement]. rewrite run_tasks_cons. unfold run_task.
  destruct (engine_error task_geography); [discriminate|].
  cbn [statement]. rewrite run_tasks_cons. unfold run_task.
  destruct (engine_error task_fact_order); [discriminate|].
  cbn [statement run_tasks]. intros H. injection H as <-.
  exists rows. split; reflexivity.
Qed.

(** With no engine error a run is the orders load followed by the four
    merges, or nothing when the orders load fails. *)
Lemma run_dag_no_error (engine_error : task -> bool) (today : date)
      (w : Warehouse) :
  (forall t, engine_error t = false) ->
  run_dag engine_error today w =
  match RUN_INSERT_ORDERS today w with
  | Success w1 => (merge_steps w1, true)
  | SqlFailure => (w, false)
  end.
Proof.
  intros H. unfold run_dag, dag_tasks. rewrite run_tasks_cons.
  unfold run_task. rewrite H. cbn [statement].
  destruct (RUN_INSERT_ORDERS today w) as [w1|]; [|reflexivity].
  do 4 (rewrite run_tasks_cons; unfold run_task; rewrite H; cbn [statement]).
  reflexivity.
Qed.

(** A warehouse that went through the merge steps, with some of its
    cleaned orders appended once more, is left as it is by each merge. *)
Lemma reload_settled (w : Warehouse) (rows : list Orders.row) :
  (forall o, In o (ORDERS w) -> keys_complete o) ->
  (forall o, In o rows -> In o (ORDERS w)) ->
  RUN_INSERT_CUSTOMERS
    (set_ORDERS (merge_steps w) (ORDERS (merge_steps w) ++ rows))
  = set_ORDERS (merge_steps w) (ORDERS (merge_steps w) ++ rows) /\
  RUN_INSERT_PRODUCTS
    (set_ORDERS (merge_steps w) (ORDERS (merge_steps w) ++ rows))
  = set_ORDERS (merge_steps w) (ORDERS (merge_steps w) ++ rows) /\
  RUN_INSERT_GEOGRAPHY
    (set_ORDERS (merge_steps w) (ORDERS (merge_steps w) ++ rows))
  = set_ORDERS (merge_steps w) (ORDERS (merge_steps w) ++ rows) /\
  RUN_INSERT_FACT_ORDER
    (set_ORDERS (merge_steps w) (ORDERS (merge_steps w) ++ rows))
  = set_ORDERS (merge_steps w) (ORDERS (merge_steps w) ++ rows).
Proof.
  intros K R.
  set (w1 := RUN_INSERT_CUSTOMERS w).
  set (w2 := RUN_INSERT_PRODUCTS w1).
  set (w3 := RUN_INSERT_GEOGRAPHY w2).
  set (wB := set_ORDERS (merge_steps w) (ORDERS (merge_steps w) ++ rows)).
  assert (IB : forall o, In o (ORDERS wB) -> In o (ORDERS w)).
  { intros o I. change (In o (ORDERS w ++ rows)) in I.
    apply in_app_or in I as [I|I]; auto. }
  split; [|split; [|split]].
  - apply customers_settled. intros o I. apply IB in I.
    destruct (K o I) as (Kc & _).
    exact (@customers_cover w o I Kc).
  - apply products_settled. intros o I. apply IB in I.
    destruct (K o I) as (_ & Kp & _).
    exact (@products_cover w1 o I Kp).
  - apply geography_settled. intros o I. apply IB in I.
    destruct (K o I) as (_ & _ & _ & Kg).
    exact (@geography_cover w2 o I Kg).
  - apply fact_settled. intros s I.
    unfold fact_source in I. apply in_flat_map in I as (o & Io & I).
    apply IB in Io.
    change (fact_candidates wB o) with (fact_candidates w3 o) in I.
    assert (Is : In s (fact_source w3))
      by (unfold fact_source; apply in_flat_map; exists o; auto).
    assert (Ko : Fact.orderid s <> None).
    { apply fact_candidates_in in I as (c & p & g & _ & _ & _ & _ & _ & _ & ->).
      simpl. destruct (K o Io) as (_ & _ & Ko & _). exact Ko. }
    exact (@fact_cover w3 s Is Ko).
Qed.

(** On a warehouse each merge leaves as it is, the four merge tasks end
    in that warehouse wherever they stop. *)
Lemma settled_merge_tasks (engine_error : task -> bool) (today : date)
      (w : Warehouse) :
  RUN_INSERT_CUSTOMERS w = w -> RUN_INSERT_PRODUCTS w = w ->
  RUN_INSERT_GEOGRAPHY w = w -> RUN_INSERT_FACT_ORDER w = w ->
  fst (run_tasks engine_error today
         [task_customers; task_products; task_geography; task_fact_order] w)
  = w /\
  ((forall t, engine_error t = false) ->
   run_tasks engine_error today
     [task_customers; task_products; task_geography; task_fact_order] w
   = (w, true)).
Proof.
  intros C P G F. split.
  - rewrite run_tasks_cons. unfold run_task.
    destruct (engine_error task_customers); [reflexivity|].
    cbn [statement]. rewrite C, run_tasks_cons. unfold run_task.
    destruct (engine_error task_products); [reflexivity|].
    cbn [statement]. rewrite P, run_tasks_cons. unfold run_task.
    destruct (engine_error task_geography); [reflexivity|].
    cbn [statement]. rewrite G, run_tasks_cons. unfold run_task.
    destruct (engine_error task_fact_order); [reflexivity|].
    cbn [statement]. rewrite F. reflexivity.
  - intros H.
    rewrite run_tasks_cons. unfold run_task. rewrite H. cbn [statement].
    rewrite C, run_tasks_cons. unfold run_task. rewrite H. cbn [statement].
    rewrite P, run_tasks_cons. unfold run_task. rewrite H. cbn [statement].
    rewrite G, run_tasks_cons. unfold run_task. rewrite H. cbn [statement].
    rewrite F. reflexivity.
Qed.

(** X12. Running the DAG a second time with the same execution date on an
    unchanged staging table appends the loaded rows to the cleaned orders
    once more and changes nothing else: customers, products, geography and
    fact_orders stay as the first run left them (for cleaned orders
    without NULL in their key columns).  With no engine error the second
    run succeeds in that state; with one, it stops either before the
    orders load or in that state. *)
Theorem rerun_changes_orders_only
        (engine_error engine_error' : task -> bool) (today : date)
        (w w1 : Warehouse) :
  run_dag engine_error today w = (w1, true) ->
  (forall o, In o (ORDERS w1) -> keys_complete o) ->
  ((forall t, engine_error' t = false) ->
   run_dag engine_error' today w1
   = (set_ORDERS w1 (ORDERS w1 ++ loaded today w), true)) /\
  (fst (run_dag engine_error' today w1) = w1 \/
   fst (run_dag engine_error' today w1)
   = set_ORDERS w1 (ORDERS w1 ++ loaded today w)).
Proof.
  intros E K. destruct (run_dag_success _ _ _ E) as (rows & I & ->).
  set (wA := set_ORDERS w (ORDERS w ++ rows)) in *.
  assert (Lr : loaded today w = rows) by (unfold loaded; rewrite I; reflexivity).
  rewrite Lr.
  assert (R : RUN_INSERT_ORDERS today (merge_steps wA)
              = Success (set_ORDERS (merge_steps wA)
                                    (ORDERS (merge_steps wA) ++ rows))).
  { unfold RUN_INSERT_ORDERS.
    change (inserted_orders today (merge_steps wA))
      with (inserted_orders today w).
    rewrite I. reflexivity. }
  assert (Rw : forall o, In o rows -> In o (ORDERS wA))
    by (intros o Io; change (In o (ORDERS w ++ rows)); apply in_or_app; auto).
  destruct (reload_settled wA rows K Rw) as (C & P & G & F).
  destruct (settled_merge_tasks engine_error' today C P G F) as (S1 & S2).
  unfold run_dag, dag_tasks. rewrite run_tasks_cons. unfold run_task. split.
  - intros H. rewrite H. cbn [statement]. rewrite R. apply S2. exact H.
  - destruct (engine_error' task_orders); [left; reflexivity|].
    cbn [statement]. rewrite R. right. exact S1.
Qed.

(** X13. The three dimension merges read the cleaned orders and their own
    table only: they can be run in any order with the same result. *)
Theorem dimension_merges_commute (w : Warehouse) :
  RUN_INSERT_PRODUCTS (RUN_INSERT_CUSTOMERS w)
  = RUN_INSERT_CUSTOMERS (RUN_INSERT_PRODUCTS w) /\
  RUN_INSERT_GEOGRAPHY (RUN_INSERT_CUSTOMERS w)
  = RUN_INSERT_CUSTOMERS (RUN_INSERT_GEOGRAPHY w) /\
  RUN_INSERT_GEOGRAPHY (RUN_INSERT_PRODUCTS w)
  = RUN_INSERT_PRODUCTS (RUN_INSERT_GEOGRAPHY w).
Proof. repeat split; reflexivity. Qed.

Lemma length_flat_map_const {A B} (f : A -> list B) (k : nat) (l : list A) :
  (forall x, In x l -> List.length (f x) = k) ->
  List.length (flat_map f l) = (List.length l * k)%nat.
Proof.
  induction l as [|a r IH]; simpl; intros H; [reflexivity|].
  rewrite length_app, (H a (or_introl eq_refl)), IH; auto.
Qed.

(** X14. The inner joins of the fact merge multiply: one cleaned order yields
    as many source rows as the product of the numbers of customers,
    products and geography rows that match it, so a dimension row held
    twice doubles the fact rows of its orders. *)
Theorem fact_candidates_count (w : Warehouse) (o : Orders.row) :
  List.length (fact_candidates w o) =
  (List.length (filter (join_customer o) (customers w)) *
   (List.length (filter (join_product o) (products w)) *
    List.length (filter (join_geography o) (geography w))))%nat.
Proof.
  unfold fact_candidates. apply length_flat_map_const. intros c _.
  apply length_flat_map_const. intros p _. apply length_map.
Qed.

(** X15. The fact merge matches on orderid alone: a source row is inserted
    exactly when its orderid is NULL or is in no row the fact table held
    before the statement.  A new line of an order that is already in the
    fact table is therefore never inserted. *)
Theorem fact_merge_by_orderid (w : Warehouse) (f : Fact.row) :
  In f (fact_inserted w) <->
  In f (fact_source w) /\
  (Fact.orderid f = None \/
   ~ In (Fact.orderid f) (map Fact.orderid (fact_orders w))).
Proof.
  unfold fact_inserted. rewrite not_matched_in. unfold fact_on.
  rewrite (id_unmatched Fact.orderid). tauto.
Qed.

Lemma str_eq_not_null (a b : option string) : str_eq a b = true -> a <> None.
Proof. destruct a; [discriminate|]. simpl. discriminate. Qed.

Lemma place_eq_complete (a b : Place.row) :
  place_eq a b = true -> place_complete a.
Proof.
  unfold place_eq. rewrite !andb_true_iff. intros [[[[A B] C] D] E].
  repeat split; eapply str_eq_not_null; eassumption.
Qed.

Lemma place_null_not_complete (s : Place.row) :
  place_has_null s -> ~ place_complete s.
Proof.
  intros H (A & B & C & D & E).
  destruct H as [H|[H|[H|[H|H]]]]; contradiction.
Qed.

(** X16. A cleaned order with NULL in customerid, productid or a place column
    yields no source row of the fact merge, whatever the dimension tables
    hold: it never reaches fact_orders. *)
Theorem null_key_never_in_fact (w : Warehouse) (o : Orders.row) :
  Orders.CustomerID o = None \/ Orders.ProductID o = None \/
  place_has_null (place_of o) ->
  fact_candidates w o = [].
Proof.
  intros H. destruct (fact_candidates w o) as [|f r] eqn:E; [reflexivity|].
  exfalso.
  assert (I : In f (fact_candidates w o)) by (rewrite E; left; reflexivity).
  apply fact_candidates_in in I as (c & p & g & _ & Jc & _ & Jp & _ & Jg & _).
  destruct H as [H|[H|H]].
  - apply str_eq_not_null in Jc. contradiction.
  - apply str_eq_not_null in Jp. contradiction.
  - apply place_eq_complete in Jg. exact (place_null_not_complete H Jg).
Qed.

(** X17. A place with NULL in one of its columns matches no geography row, not
    even its own: each run of the geography merge adds exactly one more
    row for it. *)
Theorem null_place_accumulates (w : Warehouse) (o : Orders.row) :
  In o (ORDERS w) -> place_has_null (place_of o) ->
  count_occ place_row_dec
            (map Geography.place (geography (RUN_INSERT_GEOGRAPHY w)))
            (place_of o)
  = S (count_occ place_row_dec (map Geography.place (geography w))
                 (place_of o)).
Proof.
  intros I H. unfold RUN_INSERT_GEOGRAPHY, set_geography; simpl.
  destruct (insert_geography_app (geography_id_default w)
              (not_matched geography_on (geography w)
                           (geography_source (ORDERS w)))
              (geography w)) as (a & E & M).
  rewrite E, map_app, count_occ_app, M.
  assert (N : NoDup (not_matched geography_on (geography w)
                                 (geography_source (ORDERS w))))
    by (apply NoDup_filter, NoDup_nodup).
  assert (X : In (place_of o)
                 (not_matched geography_on (geography w)
                              (geography_source (ORDERS w)))).
  { apply not_matched_in. split; [apply geography_source_in; eauto|].
    intros t _. unfold geography_on.
    destruct (place_eq (Geography.place t) (place_of o)) eqn:P;
      [|reflexivity].
    rewrite place_eq_sym in P. apply place_eq_complete in P.
    exfalso. exact (place_null_not_complete H P). }
  rewrite (proj1 (NoDup_count_occ' place_row_dec _) N _ X). lia.
Qed.

(** ** Further properties of the cleaning expression *)

Lemma filter_idem {A} (p : A -> bool) (l : list A) :
  filter p (filter p l) = filter p l.
Proof.
  induction l as [|a r IH]; simpl; [reflexivity|].
  destruct (p a) eqn:P; simpl; [rewrite P, IH|]; auto.
Qed.

(** X18. Cleaning a cleaned text changes nothing, so the cleaned product name
    that keys the subcategory map is stable under the expression. *)
Theorem clean_idempotent (x : option string) : clean (clean x) = clean x.
Proof.
  destruct x as [s|]; [|reflexivity]. unfold clean, regexp_delete.
  cbn [option_map]. rewrite list_ascii_of_string_of_list_ascii, filter_idem.
  reflexivity.
Qed.

(** ** The business month as text *)

Lemma digit_of_bound (c : ascii) (v : Z) : digit_of c = Some v -> 0 <= v <= 9.
Proof.
  unfold digit_of.
  destruct ((48 <=? Z.of_N (N_of_ascii c)) && (Z.of_N (N_of_ascii c) <=? 57))
    eqn:E; [|discriminate].
  intros H. injection H as <-. apply andb_true_iff in E as [A B].
  apply Z.leb_le in A, B. lia.
Qed.

Lemma take_digits_bound (n : nat) (s r : list ascii) (acc v : Z) :
  take_digits n s acc = Some (v, r) ->
  acc * 10 ^ Z.of_nat n <= v < (acc + 1) * 10 ^ Z.of_nat n.
Proof.
  revert s acc. induction n as [|k IH]; intros s acc H.
  - simpl in H. injection H as <- _. simpl. lia.
  - cbn [take_digits] in H. destruct s as [|c t]; [discriminate|].
    destruct (digit_of c) as [d|] eqn:D; [|discriminate].
    apply digit_of_bound in D. apply IH in H.
    rewrite Nat2Z.inj_succ, Z.pow_succ_r by lia.
    assert (Pk : 0 < 10 ^ Z.of_nat k) by (apply Z.pow_pos_nonneg; lia).
    assert (L : 0 <= d * 10 ^ Z.of_nat k)
      by (apply Z.mul_nonneg_nonneg; lia).
    assert (U : 0 <= (9 - d) * 10 ^ Z.of_nat k)
      by (apply Z.mul_nonneg_nonneg; lia).
    lia.
Qed.

Lemma parse_ddmmyyyy_bounds (s : string) (d : date) :
  parse_date "DD-MM-YYYY" s = Some d ->
  0 <= year d < 10000 /\ 1 <= month d <= 12.
Proof.
  unfold parse_date.
  change (parse_format "DD-MM-YYYY")
    with [FDD; FLit "-"; FMM; FLit "-"; FYYYY].
  destruct (parse_fields [FDD; FLit "-"; FMM; FLit "-"; FYYYY]
                         (list_ascii_of_string s) 1970 1 1) as [d0|] eqn:P;
    [|discriminate].
  destruct (valid_date d0) eqn:V; [|discriminate].
  intros H. injection H as <-.
  split.
  - cbn [parse_fields] in P.
    destruct (take_digits 2 (list_ascii_of_string s) 0) as [[dd r1]|];
      [|discriminate].
    destruct r1 as [|c1 r1]; [discriminate|].
    destruct (Ascii.eqb "-" c1); [|discriminate].
    destruct (take_digits 2 r1 0) as [[mm r2]|]; [|discriminate].
    destruct r2 as [|c2 r2]; [discriminate|].
    destruct (Ascii.eqb "-" c2); [|discriminate].
    destruct (take_digits 4 r2 0) as [[yy r3]|] eqn:Y; [|discriminate].
    destruct r3; [|discriminate]. injection P as <-.
    apply take_digits_bound in Y. cbn [year]. simpl in Y. lia.
  - unfold valid_date in V. rewrite !andb_true_iff in V.
    destruct V as [[[A B] _] _]. apply Z.leb_le in A, B. lia.
Qed.

Lemma pad_digits_length (n : nat) (v : Z) : List.length (pad_digits n v) = n.
Proof.
  revert v. induction n as [|k IH]; intros v; simpl; [reflexivity|].
  rewrite length_app, IH. simpl. lia.
Qed.

Lemma pad_digits_inj (n : nat) (a b : Z) :
  0 <= a < 10 ^ Z.of_nat n -> 0 <= b < 10 ^ Z.of_nat n ->
  pad_digits n a = pad_digits n b -> a = b.
Proof.
  revert a b. induction n as [|k IH]; intros a b Ha Hb E.
  - simpl in Ha, Hb. lia.
  - rewrite Nat2Z.inj_succ, Z.pow_succ_r in Ha, Hb by lia.
    cbn [pad_digits] in E. apply app_inj_tail in E as [E C].
    assert (Ma : 0 <= a mod 10 < 10) by (apply Z.mod_pos_bound; lia).
    assert (Mb : 0 <= b mod 10 < 10) by (apply Z.mod_pos_bound; lia).
    assert (M : a mod 10 = b mod 10).
    { apply (f_equal N_of_ascii) in C.
      rewrite !N_ascii_embedding in C by lia. lia. }
    assert (D : a / 10 = b / 10).
    { apply IH; [| |exact E].
      - split; [apply Z.div_pos; lia|apply Z.div_lt_upper_bound; lia].
      - split; [apply Z.div_pos; lia|apply Z.div_lt_upper_bound; lia]. }
    rewrite (Z.div_mod a 10), (Z.div_mod b 10) by lia. congruence.
Qed.

Lemma app_same_length_inj {A} (a c b d : list A) :
  List.length a = List.length c -> a ++ b = c ++ d -> a = c /\ b = d.
Proof.
  revert c. induction a as [|x a IH]; intros [|y c] L E;
    simpl in *; try discriminate; auto.
  injection E as -> E. injection L as L.
  destruct (IH c L E) as [-> ->]. auto.
Qed.

Lemma some_eq {A} (a b : A) : Some a = Some b -> a = b.
Proof. congruence. Qed.

(** X7. The join and the grouping compare months as YYYYMM text: for order
    dates that read as dates, the texts are equal exactly when year and
    month are. *)
Theorem same_business_month (o o' : Stg.row) (d d' : date) :
  TRY_TO_DATE (Stg.OrderDate o) "DD-MM-YYYY" = Some d ->
  TRY_TO_DATE (Stg.OrderDate o') "DD-MM-YYYY" = Some d' ->
  (order_month o = order_month o' <->
   year d = year d' /\ month d = month d').
Proof.
  intros P P'. unfold order_month. rewrite P, P'.
  assert (B : 0 <= year d < 10000 /\ 1 <= month d <= 12).
  { unfold TRY_TO_DATE in P. destruct (Stg.OrderDate o); [|discriminate].
    eapply parse_ddmmyyyy_bounds; eassumption. }
  assert (B' : 0 <= year d' < 10000 /\ 1 <= month d' <= 12).
  { unfold TRY_TO_DATE in P'. destruct (Stg.OrderDate o'); [|discriminate].
    eapply parse_ddmmyyyy_bounds; eassumption. }
  unfold TO_CHAR. change (parse_format "YYYYMM") with [FYYYY; FMM].
  cbn [flat_map print_elem]. rewrite !app_nil_r. split.
  - intros E. apply some_eq in E.
    apply (f_equal list_ascii_of_string) in E.
    rewrite !list_ascii_of_string_of_list_ascii in E.
    apply app_same_length_inj in E as [Ey Em];
      [|rewrite !pad_digits_length; reflexivity].
    split.
    + apply (@pad_digits_inj 4); [simpl; lia|simpl; lia|exact Ey].
    + apply (@pad_digits_inj 2); [simpl; lia|simpl; lia|exact Em].
  - intros [-> ->]. reflexivity.
Qed.

(** ** The merge steps as a whole *)

(** X11. Running the four merge steps again on unchanged cleaned orders
    without NULL in their key columns changes nothing, as when the tasks
    of a run are run again. *)
Theorem merge_steps_idempotent (w : Warehouse) :
  (forall o, In o (ORDERS w) -> keys_complete o) ->
  merge_steps (merge_steps w) = merge_steps w.
Proof.
  intros K.
  pose proof (@merge_steps_after_reload w [] K (fun o (I : In o []) =>
                                                 match I with end)) as H.
  rewrite app_nil_r in H.
  assert (E : set_ORDERS (merge_steps w) (ORDERS (merge_steps w))
              = merge_steps w)
    by (destruct (merge_steps w); reflexivity).
  rewrite E in H. exact H.
Qed.

(** ** Instances of the further properties *)

Lemma latest_files_groups_witness :
  NoDup (map business_month march_latest) /\
  (forall g, In g (map business_month march_latest) <->
             exists o, In o march_staging /\ in_stable april_1st o /\
                       order_month o = g) /\
  (forall lf, In lf march_latest ->
              exists T, max_tbl_dt lf = Some T /\
                        batch_max april_1st march_staging
                                  (business_month lf) T).
Proof.
  apply (@latest_files_groups april_1st march_staging march_latest).
  reflexivity.
Defined.

Lemma loaded_exactly_witness :
  select_orders march_latest
                (PRODUCT_SUBCATEGORY_MAP (warehouse_of march_staging)) chair
  <> [] <->
  accepted chair = true /\
  exists T, Stg.tbl_dt chair = Some T /\
            batch_max april_1st (STG_ORDERS (warehouse_of march_staging))
                      (order_month chair) T.
Proof.
  apply (@loaded_exactly april_1st (warehouse_of march_staging)
           march_latest chair).
  reflexivity.
Defined.

Lemma rows_per_staging_row_witness :
  List.length
    (select_orders
       [{| business_month := Some "202403"; max_tbl_dt := Some 20240331 |}]
       (PRODUCT_SUBCATEGORY_MAP double_map_warehouse) chair)
  = 2%nat.
Proof.
  exact (@rows_per_staging_row april_1st double_map_warehouse
           [{| business_month := Some "202403";
               max_tbl_dt := Some 20240331 |}] chair eq_refl).
Defined.

Lemma subcategory_from_map_witness :
  Orders.SubCategory (cleaned table None) <> None /\
  (~ In (Orders.ProductName (cleaned table None))
        (map SubMap.PRODUCTNAME
             (PRODUCT_SUBCATEGORY_MAP (warehouse_of march_staging))) ->
   Orders.SubCategory (cleaned table None) = Some "Unmapped") /\
  (Orders.SubCategory (cleaned table None) = Some "Unmapped" \/
   exists m, In m (PRODUCT_SUBCATEGORY_MAP (warehouse_of march_staging)) /\
             SubMap.PRODUCTNAME m = Orders.ProductName (cleaned table None) /\
             SubMap.SUBCATEGORY m = Orders.SubCategory (cleaned table None)).
Proof.
  apply (@subcategory_from_map april_1st (warehouse_of march_staging)).
  vm_compute. right. left. reflexivity.
Defined.

Lemma unreadable_marker_fails_witness :
  (RUN_INSERT_ORDERS april_1st (warehouse_of [chair; bad_marker]) = SqlFailure /\
   loaded april_1st (warehouse_of [chair; bad_marker]) = [] /\
   run_dag no_error april_1st (warehouse_of [chair; bad_marker])
   = (warehouse_of [chair; bad_marker], false)) /\
  in_stable_month april_1st no_marker = Success false /\
  select_orders march_latest
                (PRODUCT_SUBCATEGORY_MAP (warehouse_of [chair; bad_marker]))
                no_marker = [].
Proof.
  destruct (unreadable_marker_fails no_error april_1st
                                    (warehouse_of [chair; bad_marker]))
    as (A & B & C).
  split; [|split].
  - apply A. exists bad_marker. split; [right; left; reflexivity|].
    split; [discriminate|reflexivity].
  - apply B. reflexivity.
  - apply C. reflexivity.
Defined.

Lemma one_batch_per_month_witness :
  Orders.TBL_DT (cleaned chair (Some chairs_entry))
  = Orders.TBL_DT (cleaned table None).
Proof.
  apply (@one_batch_per_month april_1st (warehouse_of march_staging)).
  - vm_compute. left. reflexivity.
  - vm_compute. right. left. reflexivity.
  - reflexivity.
Defined.

Lemma run_leaves_inputs_witness :
  ORDERS (fst (run_dag (error_at task_orders) april_1st
                       (warehouse_of [chair; table])))
  = ORDERS (warehouse_of [chair; table]) /\
  ORDERS (fst (run_dag (error_at task_products) april_1st
                       (warehouse_of [chair; table])))
  = ORDERS (warehouse_of [chair; table])
    ++ loaded april_1st (warehouse_of [chair; table]) /\
  ORDERS (fst (run_dag no_error april_1st (warehouse_of [chair; table])))
  = ORDERS (warehouse_of [chair; table])
    ++ loaded april_1st (warehouse_of [chair; table]).
Proof.
  destruct (run_leaves_inputs (error_at task_orders) april_1st
                              (warehouse_of [chair; table]))
    as (_ & _ & A & _).
  destruct (run_leaves_inputs (error_at task_products) april_1st
                              (warehouse_of [chair; table]))
    as (_ & _ & _ & B & _).
  destruct (run_leaves_inputs no_error april_1st
                              (warehouse_of [chair; table]))
    as (_ & _ & _ & _ & C).
  split; [apply A; reflexivity|].
  split; [apply B; reflexivity|apply C; reflexivity].
Defined.

Lemma dimensions_cover_orders_witness :
  In (Orders.CustomerID (cleaned chair (Some chairs_entry)))
     (map Customers.customerid
          (customers (RUN_INSERT_CUSTOMERS (orders_loaded [chair])))) /\
  In (Orders.ProductID (cleaned chair (Some chairs_entry)))
     (map Products.productid
          (products (RUN_INSERT_PRODUCTS (orders_loaded [chair])))) /\
  In (place_of (cleaned chair (Some chairs_entry)))
     (map Geography.place
          (geography (RUN_INSERT_GEOGRAPHY (orders_loaded [chair])))).
Proof.
  destruct (@dimensions_cover_orders (orders_loaded [chair])
              (cleaned chair (Some chairs_entry)))
    as (A & B & C).
  - left. reflexivity.
  - split; [apply A; discriminate|].
    split; [apply B; discriminate|].
    apply C. repeat split; discriminate.
Defined.

Lemma complete_orders_reach_fact_witness :
  In (Orders.OrderID (cleaned chair (Some chairs_entry)))
     (map Fact.orderid (fact_orders (merge_steps (orders_loaded [chair])))) /\
  exists c p g,
    In c (customers (merge_steps (orders_loaded [chair]))) /\
    join_customer (cleaned chair (Some chairs_entry)) c = true /\
    In p (products (merge_steps (orders_loaded [chair]))) /\
    join_product (cleaned chair (Some chairs_entry)) p = true /\
    In g (geography (merge_steps (orders_loaded [chair]))) /\
    join_geography (cleaned chair (Some chairs_entry)) g = true /\
    In (fact_row (cleaned chair (Some chairs_entry)) c p g)
       (fact_orders (merge_steps (orders_loaded [chair]))).
Proof.
  destruct (@complete_orders_reach_fact (orders_loaded [chair])
              (cleaned chair (Some chairs_entry))) as (A & B).
  - left. reflexivity.
  - repeat split; discriminate.
  - split; [exact A|]. apply B. simpl. intros [].
Defined.

Lemma rerun_changes_orders_only_witness :
  run_dag no_error april_1st
          (fst (run_dag no_error april_1st (warehouse_of [chair; table])))
  = (set_ORDERS (fst (run_dag no_error april_1st (warehouse_of [chair; table])))
       (ORDERS (fst (run_dag no_error april_1st (warehouse_of [chair; table])))
        ++ loaded april_1st (warehouse_of [chair; table])),
     true) /\
  (fst (run_dag (error_at task_geography) april_1st
          (fst (run_dag no_error april_1st (warehouse_of [chair; table]))))
   = fst (run_dag no_error april_1st (warehouse_of [chair; table])) \/
   fst (run_dag (error_at task_geography) april_1st
          (fst (run_dag no_error april_1st (warehouse_of [chair; table]))))
   = set_ORDERS (fst (run_dag no_error april_1st (warehouse_of [chair; table])))
       (ORDERS (fst (run_dag no_error april_1st (warehouse_of [chair; table])))
        ++ loaded april_1st (warehouse_of [chair; table]))).
Proof.
  assert (K : forall o,
             In o (ORDERS (fst (run_dag no_error april_1st
                                        (warehouse_of [chair; table])))) ->
             keys_complete o).
  { intros o I. vm_compute in I.
    destruct I as [<-|[<-|[]]]; repeat split; discriminate. }
  split.
  - apply (@rerun_changes_orders_only no_error no_error april_1st
             (warehouse_of [chair; table]) _ eq_refl K).
    reflexivity.
  - apply (@rerun_changes_orders_only no_error (error_at task_geography)
             april_1st (warehouse_of [chair; table]) _ eq_refl K).
Defined.

Lemma null_key_never_in_fact_witness :
  fact_candidates (dimensions_merged [no_zip]) (unmapped no_zip) = [].
Proof.
  apply null_key_never_in_fact.
  right. right. right. right. right. left. reflexivity.
Defined.

Lemma null_place_accumulates_witness :
  count_occ place_row_dec
            (map Geography.place
                 (geography (RUN_INSERT_GEOGRAPHY (dimensions_merged [no_zip]))))
            (place_of (unmapped no_zip))
  = S (count_occ place_row_dec
                 (map Geography.place (geography (dimensions_merged [no_zip])))
                 (place_of (unmapped no_zip))).
Proof.
  apply null_place_accumulates.
  - left. reflexivity.
  - right. right. right. left. reflexivity.
Defined.

Lemma same_business_month_witness :
  order_month chair = order_month table <->
  year (mkdate 2024 3 15) = year (mkdate 2024 3 15) /\
  month (mkdate 2024 3 15) = month (mkdate 2024 3 15).
Proof.
  apply same_business_month; reflexivity.
Defined.

Lemma merge_steps_idempotent_witness :
  merge_steps (merge_steps (orders_loaded [chair; table]))
  = merge_steps (orders_loaded [chair; table]).
Proof.
  apply merge_steps_idempotent.
  intros o I. vm_compute in I.
  destruct I as [<-|[<-|[]]]; repeat split; discriminate.
Defined.
